(** * Battery cell monitor (Cell_Performance.py): model and verified properties

    The development embeds [StreamlitBatteryCellMonitor] and the parts of [main]
    that mutate or read [st.session_state]:

    - Python values as the program has them: [float] is binary64
      (Rocq's primitive floats), [str] is [string], the counter is an unbounded
      [int] that only ever counts up from 0 ([nat]), a [dict] is an
      insertion-ordered association list;
    - [st.session_state] as an explicit record threaded through every
      operation;
    - the two sources of nondeterminism, [random.uniform] and [datetime.now],
      as explicit arguments holding the value that the call returned. *)

From Stdlib Require Import ZArith List String Ascii Bool Lia Floats.
From Stdlib Require Import DecimalString DecimalNat DecimalN DecimalPos DecimalFacts.
Import ListNotations.

Set Warnings "-inexact-float,-register-all".

Open Scope list_scope.
Open Scope string_scope.

(** ** Python built-ins used by the program *)

Module Py.

(** [str(n)] for a non-negative [int], as used inside an f-string. *)
Definition str_of_nat (n : nat) : string :=
  NilEmpty.string_of_uint (Nat.to_uint n).

(** *** dict: insertion-ordered map with [str] keys

    Assigning to a key that is present replaces the value in place (the key
    keeps its position); assigning to a fresh key appends. *)
Section Dict.
Context {V : Type}.

Definition dict := list (string * V).

Fixpoint get (k : string) (d : dict) : option V :=
  match d with
  | [] => None
  | (k', v) :: d' => if String.eqb k k' then Some v else get k d'
  end.

(** [k in d] *)
Definition mem (k : string) (d : dict) : bool :=
  match get k d with Some _ => true | None => false end.

(** [d[k] = v] *)
Fixpoint set (k : string) (v : V) (d : dict) : dict :=
  match d with
  | [] => [(k, v)]
  | (k', v') :: d' =>
      if String.eqb k k' then (k, v) :: d' else (k', v') :: set k v d'
  end.

(** [del d[k]] (the caller has checked [k in d]) *)
Fixpoint del (k : string) (d : dict) : dict :=
  match d with
  | [] => []
  | (k', v') :: d' =>
      if String.eqb k k' then d' else (k', v') :: del k d'
  end.

(** [d[k].<field> = ...]: in-place mutation of the value stored under [k];
    the program only does this after checking [k in d]. *)
Fixpoint modify (k : string) (f : V -> V) (d : dict) : dict :=
  match d with
  | [] => []
  | (k', v') :: d' =>
      if String.eqb k k' then (k', f v') :: d' else (k', v') :: modify k f d'
  end.

(** [len(d)] *)
Definition len (d : dict) : nat := List.length d.

Definition keys (d : dict) : list string := map fst d.
Definition values (d : dict) : list V := map snd d.

(** [d.get(k, default)] *)
Definition get_default (k : string) (default : V) (d : dict) : V :=
  match get k d with Some v => v | None => default end.
End Dict.
Arguments dict : clear implicits.

(** *** float: [round(x, ndigits)]

    CPython rounds the exact binary value of [x] to [ndigits] decimals,
    ties to even, and returns the binary64 nearest to that decimal.
    Infinities, NaN and zeros round to themselves. *)

Definition round_half_even (a b : Z) : Z :=
  let q := (a / b)%Z in
  let r := (a mod b)%Z in
  match (2 * r ?= b)%Z with
  | Lt => q
  | Gt => (q + 1)%Z
  | Eq => if Z.even q then q else (q + 1)%Z
  end.

(** The binary64 nearest (ties to even) to [(-1)^s * num / den], for
    [num >= 0]. *)
Definition nearest_sf (s : bool) (num : Z) (den : positive) : spec_float :=
  match num with
  | Zpos n => SFdiv prec emax (S754_finite s n 0) (S754_finite false den 0)
  | _ => S754_zero s
  end.

Definition nearest_float (s : bool) (num : Z) (den : positive) : float :=
  SF2Prim (nearest_sf s num den).

Definition round (x : float) (ndigits : nat) : float :=
  match Prim2SF x with
  | S754_finite s m e =>
      if (0 <=? e)%Z then x
      else
        let scale := (10 ^ Z.of_nat ndigits)%Z in
        nearest_float s (round_half_even (Zpos m * scale) (2 ^ (- e)))
                      (Z.to_pos scale)
  | _ => x
  end.

(** *** float: text

    [float(text)] on a JSON number reads the decimal exactly and returns the
    nearest binary64; [repr(x)] is the shortest digit string that reads back
    as [x], the one closest to [x] when several of that length do. *)

Definition sf_eqb (x y : spec_float) : bool :=
  match x, y with
  | S754_zero a, S754_zero b => Bool.eqb a b
  | S754_infinity a, S754_infinity b => Bool.eqb a b
  | S754_nan, S754_nan => true
  | S754_finite a m e, S754_finite b n f =>
      Bool.eqb a b && Pos.eqb m n && Z.eqb e f
  | _, _ => false
  end.

Definition str_of_N (n : N) : string :=
  NilEmpty.string_of_uint (N.to_uint n).

Definition N_of_str (s : string) : option N :=
  option_map N.of_uint (NilEmpty.uint_of_string s).

Definition is_digit (c : ascii) : bool :=
  ((48 <=? nat_of_ascii c) && (nat_of_ascii c <=? 57))%nat.

(** Characters that can occur in a JSON number. *)
Definition is_numchar (c : ascii) : bool :=
  is_digit c || Ascii.eqb c "-" || Ascii.eqb c "+" || Ascii.eqb c "."
  || Ascii.eqb c "e" || Ascii.eqb c "E".

Fixpoint all_chars (p : ascii -> bool) (s : string) : bool :=
  match s with
  | "" => true
  | String c r => p c && all_chars p r
  end.

(** Longest prefix whose characters satisfy [p], and the rest. *)
Fixpoint span (p : ascii -> bool) (s : string) : string * string :=
  match s with
  | "" => ("", "")
  | String c r =>
      if p c then let '(a, b) := span p r in (String c a, b) else ("", s)
  end.

(** Integer part of a JSON number: ["0"], or digits not starting with 0. *)
Definition int_part_ok (ip : string) : bool :=
  match ip with
  | "" => false
  | String c r =>
      if Ascii.eqb c "0" then match r with "" => true | _ => false end
      else true
  end.

(** The exponent part at the end of a number (e or E, an optional sign,
    digits) as an integer; [Some 0] when there is none. *)
Definition exponent_of_string (t : string) : option Z :=
  match t with
  | "" => Some 0%Z
  | String c r =>
      if Ascii.eqb c "e" || Ascii.eqb c "E" then
        let '(neg, ds) :=
          match r with
          | "" => (false, r)
          | String c' r' =>
              if Ascii.eqb c' "-" then (true, r')
              else if Ascii.eqb c' "+" then (false, r')
              else (false, r)
          end in
        match ds with
        | "" => None
        | _ => if all_chars is_digit ds then
                 option_map (fun n => if neg then (- Z.of_N n)%Z else Z.of_N n)
                            (N_of_str ds)
               else None
        end
      else None
  end.

(** The float written by the JSON number [t]: an optional minus sign, an
    integer part, then a fraction (a point and digits), an exponent, or both.
    With neither the number is an [int], which this model leaves out. *)
Definition number_of_string (t : string) : option spec_float :=
  if all_chars is_numchar t then
    let '(neg, t1) :=
      match t with
      | "" => (false, t)
      | String c r => if Ascii.eqb c "-" then (true, r) else (false, t)
      end in
    let '(ip, t2) := span is_digit t1 in
    if int_part_ok ip then
      let '(fp, t3) :=
        match t2 with
        | "" => (None, t2)
        | String c r =>
            if Ascii.eqb c "." then
              let '(f, r') := span is_digit r in (Some f, r')
            else (None, t2)
        end in
      match fp, t3 with
      | Some "", _ => None
      | None, "" => None
      | _, _ =>
          let f := match fp with Some f => f | None => "" end in
          match exponent_of_string t3, N_of_str (ip ++ f) with
          | Some ex, Some n =>
              let scale := (ex - Z.of_nat (String.length f))%Z in
              Some (if (0 <=? scale)%Z
                    then nearest_sf neg (Z.of_N n * 10 ^ scale) 1
                    else nearest_sf neg (Z.of_N n) (Z.to_pos (10 ^ (- scale))))
          | _, _ => None
          end
      end
    else None
  else None.

Fixpoint zeros (n : nat) : string :=
  match n with O => "" | S n' => String "0" (zeros n') end.

(** Exponent as ["%+.02d"] prints it. *)
Definition exp_text (e : Z) : string :=
  (if (e <? 0)%Z then "-" else "+") ++
  (if (Z.abs e <? 10)%Z then "0" else "") ++ str_of_N (Z.abs_N e).

(** Layout of [repr]: [digits] are the significant digits, the decimal point
    stands after the first [decpt] of them; exponent form when
    [decpt <= -4] or [decpt > 16]. *)
Definition format_r (digits : string) (decpt : Z) : string :=
  let n := String.length digits in
  if ((decpt <=? -4) || (16 <? decpt))%Z then
    substring 0 1 digits ++
    (if (1 <? n)%nat then "." ++ substring 1 (n - 1) digits else "") ++
    "e" ++ exp_text (decpt - 1)
  else if (decpt <=? 0)%Z then
    "0." ++ zeros (Z.to_nat (- decpt)) ++ digits
  else if (Z.to_nat decpt <? n)%nat then
    substring 0 (Z.to_nat decpt) digits ++ "." ++
    substring (Z.to_nat decpt) (n - Z.to_nat decpt) digits
  else digits ++ zeros (Z.to_nat decpt - n) ++ ".0".

(** Position of the decimal point of [num/den > 0]: the [p] with
    [10^(p-1) <= num/den < 10^p]. *)
Fixpoint decpt_below (fuel : nat) (num den j : Z) : Z :=
  match fuel with
  | O => (- j)%Z
  | S fuel' =>
      if (den <=? num * 10 ^ (j + 1))%Z then (- j)%Z
      else decpt_below fuel' num den (j + 1)%Z
  end.

Definition decpt_of (num den : Z) : Z :=
  if (den <=? num)%Z
  then Z.of_nat (String.length (str_of_N (Z.to_N (num / den))))
  else decpt_below 400 num den 0.

Fixpoint strip_zeros (fuel : nat) (c : Z) : Z :=
  match fuel with
  | O => c
  | S f =>
      if ((c mod 10 =? 0) && negb (c =? 0))%Z
      then strip_zeros f (c / 10)%Z else c
  end.

(** The text of the [k]-digit decimal [c * 10^(p-k)], signed. *)
Definition decimal_text (s : bool) (c p k : Z) : string :=
  let len := Z.of_nat (String.length (str_of_N (Z.to_N c))) in
  (if s then "-" else "") ++
  format_r (str_of_N (Z.to_N (strip_zeros 20 c))) (p + (len - k))%Z.

Definition reads_as (target : spec_float) (t : string) : bool :=
  match number_of_string t with
  | Some x => sf_eqb x target
  | None => false
  end.

(** The [k]-digit decimals next to [num/den] (below and above) that read
    back as [target]; the closer one when both do. *)
Definition candidate (s : bool) (target : spec_float) (num den p k : Z)
  : option string :=
  let sc := (k - p)%Z in
  let wn := if (0 <=? sc)%Z then (num * 10 ^ sc)%Z else num in
  let wd := if (0 <=? sc)%Z then den else (den * 10 ^ (- sc))%Z in
  let lo := (wn / wd)%Z in
  let hi := (lo + 1)%Z in
  let tlo := decimal_text s lo p k in
  let thi := decimal_text s hi p k in
  match reads_as target tlo, reads_as target thi with
  | true, true =>
      match (2 * wn ?= (lo + hi) * wd)%Z with
      | Lt => Some tlo
      | Gt => Some thi
      | Eq => Some (if Z.even lo then tlo else thi)
      end
  | true, false => Some tlo
  | false, true => Some thi
  | false, false => None
  end.

Fixpoint shortest (fuel : nat) (s : bool) (target : spec_float)
    (num den p k : Z) : option string :=
  match fuel with
  | O => None
  | S fuel' =>
      match candidate s target num den p k with
      | Some t => Some t
      | None => shortest fuel' s target num den p (k + 1)%Z
      end
  end.

(** The exact value of [m * 2^e], written as an integer with a decimal
    exponent. *)
Definition exact_text (s : bool) (m : positive) (e : Z) : string :=
  (if s then "-" else "") ++
  (if (0 <=? e)%Z
   then str_of_N (Z.to_N (Zpos m * 2 ^ e)) ++ "e+" ++ str_of_N 0
   else str_of_N (Z.to_N (Zpos m * 5 ^ (- e))) ++ "e-" ++ str_of_N (Z.to_N (- e))).

(** [repr] of a finite nonzero float. Seventeen digits always suffice for a
    binary64; the exact expansion stands behind the search so that the
    function is total. *)
Definition repr_finite (s : bool) (m : positive) (e : Z) : string :=
  let num := if (0 <=? e)%Z then (Zpos m * 2 ^ e)%Z else Zpos m in
  let den := if (0 <=? e)%Z then 1%Z else (2 ^ (- e))%Z in
  match shortest 17 s (S754_finite s m e) num den (decpt_of num den) 1 with
  | Some t => t
  | None => exact_text s m e
  end.

(** [repr(x)], which is also [str(x)] *)
Definition float_repr (x : float) : string :=
  match Prim2SF x with
  | S754_nan => "nan"
  | S754_infinity s => (if s then "-" else "") ++ "inf"
  | S754_zero s => (if s then "-" else "") ++ "0.0"
  | S754_finite s m e => repr_finite s m e
  end.

(** *** Values

    The program stores only [str] and [float] values, inside dicts. *)
Inductive scalar :=
| VStr (s : string)
| VFloat (x : float).

Inductive pyobj :=
| PVal (v : scalar)
| PDict (items : list (string * pyobj)).

(** *** json.dumps(obj, indent=2) and json.loads

    A [str] is a sequence of code points below 256, one per [ascii]. *)

Definition dquote : ascii := "034"%char.
Definition backslash : ascii := "092"%char.
Definition newline : ascii := "010"%char.

Definition hex_digit (n : nat) : ascii :=
  match n with
  | 0 => "0" | 1 => "1" | 2 => "2" | 3 => "3" | 4 => "4" | 5 => "5"
  | 6 => "6" | 7 => "7" | 8 => "8" | 9 => "9" | 10 => "a" | 11 => "b"
  | 12 => "c" | 13 => "d" | 14 => "e" | _ => "f"
  end%char.

Definition hex_value (c : ascii) : option nat :=
  let n := nat_of_ascii c in
  if ((48 <=? n) && (n <=? 57))%nat then Some (n - 48)%nat
  else if ((97 <=? n) && (n <=? 102))%nat then Some (n - 87)%nat
  else if ((65 <=? n) && (n <=? 70))%nat then Some (n - 55)%nat
  else None.

(** One character inside a JSON string, with [ensure_ascii]. *)
Definition escape_char (c : ascii) : string :=
  let n := nat_of_ascii c in
  if Ascii.eqb c backslash then String backslash (String backslash "")
  else if Ascii.eqb c dquote then String backslash (String dquote "")
  else if (n =? 8)%nat then String backslash "b"
  else if (n =? 12)%nat then String backslash "f"
  else if (n =? 10)%nat then String backslash "n"
  else if (n =? 13)%nat then String backslash "r"
  else if (n =? 9)%nat then String backslash "t"
  else if ((32 <=? n) && (n <=? 126))%nat then String c ""
  else String backslash
         (String "u" (String "0" (String "0"
            (String (hex_digit (n / 16)) (String (hex_digit (n mod 16)) ""))))).

Fixpoint escape (s : string) : string :=
  match s with
  | "" => ""
  | String c r => escape_char c ++ escape r
  end.

Definition encode_string (s : string) : string :=
  String dquote (escape s ++ String dquote "").

Definition is_nan (x : float) : bool :=
  match Prim2SF x with S754_nan => true | _ => false end.

Definition floatstr (x : float) : string :=
  match Prim2SF x with
  | S754_nan => "NaN"
  | S754_infinity false => "Infinity"
  | S754_infinity true => "-Infinity"
  | _ => float_repr x
  end.

Fixpoint spaces (n : nat) : string :=
  match n with O => "" | S n' => String " " (spaces n') end.

Definition newline_indent (level : nat) : string :=
  String newline (spaces (2 * level)).

Definition encode_scalar (v : scalar) : string :=
  match v with
  | VStr s => encode_string s
  | VFloat x => floatstr x
  end.

Fixpoint dumps (level : nat) (o : pyobj) : string :=
  match o with
  | PVal v => encode_scalar v
  | PDict [] => "{}"
  | PDict items =>
      "{" ++ newline_indent (S level) ++
      String.concat ("," ++ newline_indent (S level))
        (map (fun kv => encode_string (fst kv) ++ ": " ++ dumps (S level) (snd kv))
             items) ++
      newline_indent level ++ "}"
  end.

(** [json.dumps(o, indent=2)] *)
Definition json_dumps (o : pyobj) : string := dumps 0 o.

Definition is_ws (c : ascii) : bool :=
  Ascii.eqb c " " || Ascii.eqb c "009" || Ascii.eqb c "010" || Ascii.eqb c "013".

Fixpoint skip_ws (s : string) : string :=
  match s with
  | "" => ""
  | String c r => if is_ws c then skip_ws r else s
  end.

Definition unescape (c : ascii) : option ascii :=
  if Ascii.eqb c dquote then Some dquote
  else if Ascii.eqb c backslash then Some backslash
  else if Ascii.eqb c "/" then Some "/"%char
  else if Ascii.eqb c "b" then Some "008"%char
  else if Ascii.eqb c "f" then Some "012"%char
  else if Ascii.eqb c "n" then Some "010"%char
  else if Ascii.eqb c "r" then Some "013"%char
  else if Ascii.eqb c "t" then Some "009"%char
  else None.

Definition cons_char (c : ascii) (r : option (string * string))
  : option (string * string) :=
  match r with
  | Some (t, rest) => Some (String c t, rest)
  | None => None
  end.

(** The string whose opening quote has just been read, and what follows its
    closing quote. Raw control characters are refused (strict mode); an
    escaped code point of 256 or more is outside this model. *)
Fixpoint scanstring (s : string) : option (string * string) :=
  match s with
  | "" => None
  | String c r =>
      if Ascii.eqb c dquote then Some ("", r)
      else if Ascii.eqb c backslash then
        match r with
        | "" => None
        | String e r1 =>
            if Ascii.eqb e "u" then
              match r1 with
              | String h1 (String h2 (String h3 (String h4 r2))) =>
                  match hex_value h1, hex_value h2, hex_value h3, hex_value h4 with
                  | Some 0, Some 0, Some a, Some b =>
                      cons_char (ascii_of_nat (16 * a + b)) (scanstring r2)
                  | _, _, _, _ => None
                  end
              | _ => None
              end
            else
              match unescape e with
              | Some c' => cons_char c' (scanstring r1)
              | None => None
              end
        end
      else if (nat_of_ascii c <? 32)%nat then None
      else cons_char c (scanstring r)
  end.

Fixpoint strip_prefix (p s : string) : option string :=
  match p, s with
  | "", _ => Some s
  | String a p', String b s' => if Ascii.eqb a b then strip_prefix p' s' else None
  | _, "" => None
  end.

(** A number, or one of the constants NaN, Infinity, -Infinity. *)
Definition scan_float (s : string) : option (float * string) :=
  let '(t, rest) := span is_numchar s in
  match number_of_string t with
  | Some x => Some (SF2Prim x, rest)
  | None =>
      match strip_prefix "NaN" s, strip_prefix "Infinity" s,
            strip_prefix "-Infinity" s with
      | Some rest', _, _ => Some (nan, rest')
      | _, Some rest', _ => Some (infinity, rest')
      | _, _, Some rest' => Some (neg_infinity, rest')
      | _, _, _ => None
      end
  end.

(** [scan_value] reads the value that starts at the head of [s];
    [scan_members] reads the members of an object from the first character
    of a key on, [acc] being the dict built so far. *)
Fixpoint scan_value (fuel : nat) (s : string) {struct fuel}
  : option (pyobj * string) :=
  match fuel with
  | O => None
  | S fuel' =>
      match s with
      | "" => None
      | String c r =>
          if Ascii.eqb c dquote then
            match scanstring r with
            | Some (t, rest) => Some (PVal (VStr t), rest)
            | None => None
            end
          else if Ascii.eqb c "{" then
            match skip_ws r with
            | String "}" rest => Some (PDict [], rest)
            | r1 => scan_members fuel' r1 []
            end
          else
            match scan_float s with
            | Some (x, rest) => Some (PVal (VFloat x), rest)
            | None => None
            end
      end
  end
with scan_members (fuel : nat) (s : string) (acc : list (string * pyobj))
  {struct fuel} : option (pyobj * string) :=
  match fuel with
  | O => None
  | S fuel' =>
      match s with
      | "" => None
      | String c r =>
          if Ascii.eqb c dquote then
            match scanstring r with
            | Some (k, r1) =>
                match skip_ws r1 with
                | String ":" r2 =>
                    match scan_value fuel' (skip_ws r2) with
                    | Some (v, r3) =>
                        match skip_ws r3 with
                        | String "," r4 =>
                            scan_members fuel' (skip_ws r4) (set k v acc)
                        | String "}" r4 => Some (PDict (set k v acc), r4)
                        | _ => None
                        end
                    | None => None
                    end
                | _ => None
                end
            | None => None
            end
          else None
      end
  end.

(** [json.loads(s)], on documents made of objects, strings and floats. *)
Definition json_loads (s : string) : option pyobj :=
  match scan_value (String.length s) (skip_ws s) with
  | Some (v, rest) =>
      match skip_ws rest with
      | "" => Some v
      | _ => None
      end
  | None => None
  end.

(** *** csv.writer, as pandas drives it: comma, QUOTE_MINIMAL, LF *)

(** A field is quoted when it holds the delimiter, the quote character or a
    character of the line terminator. *)
Definition csv_special (c : ascii) : bool :=
  Ascii.eqb c "," || Ascii.eqb c dquote || Ascii.eqb c newline.

Fixpoint double_quotes (s : string) : string :=
  match s with
  | "" => ""
  | String c r =>
      if Ascii.eqb c dquote then String c (String c (double_quotes r))
      else String c (double_quotes r)
  end.

Definition csv_field (s : string) : string :=
  if all_chars (fun c => negb (csv_special c)) s then s
  else String dquote (double_quotes s ++ String dquote "").

Definition csv_line (fields : list string) : string :=
  match fields with
  | [""] => String dquote (String dquote (String newline ""))
  | _ => String.concat "," (map csv_field fields) ++ String newline ""
  end.

End Py.

(** ** The monitor *)

(** One entry of [st.session_state.cells_data]: the inner dict, whose seven
    keys are fixed at creation and keep their insertion order. *)
Record cell := mkCell {
  type : string;
  voltage : float;
  current : float;
  temp : float;
  capacity : float;
  status : string;
  created : string
}.

(** [st.session_state], as far as the program uses it. *)
Record session_state := mkState {
  cells_data : Py.dict cell;
  cell_counter : nat
}.

Definition set_current (x : float) (c : cell) : cell :=
  mkCell (type c) (voltage c) x (temp c) (capacity c) (status c) (created c).

Definition set_capacity (x : float) (c : cell) : cell :=
  mkCell (type c) (voltage c) (current c) (temp c) x (status c) (created c).

Definition set_status (x : string) (c : cell) : cell :=
  mkCell (type c) (voltage c) (current c) (temp c) (capacity c) x (created c).

Definition valid_cell_types : list string :=
  ["lfp"; "li-ion"; "nicad"; "nimh"; "lead-acid"].

Definition voltage_map : Py.dict float :=
  [("lfp", 3.2%float); ("li-ion", 3.6%float); ("nicad", 1.2%float);
   ("nimh", 1.2%float); ("lead-acid", 2.0%float)].

(** [__init__] on a fresh session: both keys are missing and get created. *)
Definition init : session_state := mkState [] 0.

(** f"cell_{st.session_state.cell_counter}_{cell_type}" *)
Definition make_cell_id (counter : nat) (cell_type : string) : string :=
  "cell_" ++ Py.str_of_nat counter ++ "_" ++ cell_type.

(** [add_cell]. [draw] is the value returned by [random.uniform(25, 40)],
    [now] the text returned by [datetime.now().strftime(...)]. *)
Definition add_cell (draw : float) (now : string) (cell_type : string)
    (st : session_state) : (bool * string) * session_state :=
  if (8 <=? Py.len (cells_data st))%nat then
    ((false, "Maximum 8 cells reached!"), st)
  else
    let counter := (cell_counter st + 1)%nat in
    let cell_id := make_cell_id counter cell_type in
    let voltage := Py.get_default cell_type 3.6%float voltage_map in
    let c := {| type := cell_type;
                voltage := voltage;
                current := 0.0%float;
                temp := Py.round draw 1;
                capacity := 0.0%float;
                status := "Ready";
                created := now |} in
    ((true, "Added new cell: " ++ cell_id),
     mkState (Py.set cell_id c (cells_data st)) counter).

(** [remove_cell] *)
Definition remove_cell (cell_id : string) (st : session_state)
  : (bool * string) * session_state :=
  if Py.mem cell_id (cells_data st) then
    ((true, "Removed cell: " ++ cell_id),
     mkState (Py.del cell_id (cells_data st)) (cell_counter st))
  else ((false, "Cell not found!"), st).

(** [update_cell_current]: three assignments into the stored inner dict, the
    voltage read first. *)
Definition update_cell_current (cell_id : string) (current : float)
    (st : session_state) : bool * session_state :=
  match Py.get cell_id (cells_data st) with
  | Some c =>
      let voltage := voltage c in
      let d1 := Py.modify cell_id (set_current current) (cells_data st) in
      let d2 := Py.modify cell_id
                  (set_capacity (Py.round (voltage * current)%float 2)) d1 in
      let d3 := Py.modify cell_id
                  (set_status (if (0 <? current)%float then "Active"
                               else "Standby")) d2 in
      (true, mkState d3 (cell_counter st))
  | None => (false, st)
  end.

(** The "Clear All" button of [main]. *)
Definition clear_all (st : session_state) : session_state := mkState [] 0.

(** ** Commands

    What a caller can do to the session state: the three mutating methods and
    the "Clear All" button. *)
Inductive command :=
| AddCell (draw : float) (now : string) (cell_type : string)
| RemoveCell (cell_id : string)
| UpdateCurrent (cell_id : string) (current : float)
| ClearAll.

Definition step (st : session_state) (c : command) : session_state :=
  match c with
  | AddCell draw now cell_type => snd (add_cell draw now cell_type st)
  | RemoveCell cell_id => snd (remove_cell cell_id st)
  | UpdateCurrent cell_id current => snd (update_cell_current cell_id current st)
  | ClearAll => clear_all st
  end.

Definition run (cs : list command) (st : session_state) : session_state :=
  fold_left step cs st.

(** A command as [main] issues it: the number input of the update form has
    [min_value=0.0], so the current it passes on is never below zero. *)
Definition nonneg_command (c : command) : bool :=
  match c with
  | UpdateCurrent _ current => (0 <=? current)%float
  | _ => true
  end.

(** ** Pandas, as far as the program uses it *)

Module Pd.

Record DataFrame := mkFrame {
  columns : list string;
  rows : list (list Py.scalar)
}.

(** [pd.DataFrame()] *)
Definition empty : DataFrame := mkFrame [] [].

(** [pd.DataFrame(data)] for a list of dicts that all have the keys of the
    first one, in its order. *)
Definition of_records (data : list (Py.dict Py.scalar)) : DataFrame :=
  mkFrame (match data with [] => [] | r :: _ => Py.keys r end)
          (map Py.values data).

(** [len(df)] *)
Definition len (df : DataFrame) : nat := List.length (rows df).

Fixpoint index_of (name : string) (cols : list string) : option nat :=
  match cols with
  | [] => None
  | c :: cols' =>
      if String.eqb name c then Some 0
      else option_map S (index_of name cols')
  end.

(** [df[name]]; [None] stands for the [KeyError] of a missing column. *)
Definition column (name : string) (df : DataFrame)
  : option (list Py.scalar) :=
  match index_of name (columns df) with
  | Some i => Some (map (fun r => nth i r (Py.VStr "")) (rows df))
  | None => None
  end.

(** [series.sum()]: NaN entries are skipped. The additions are taken from
    left to right; no statement below depends on their order. *)
Definition sum (xs : list Py.scalar) : float :=
  fold_left
    (fun acc v =>
       match v with
       | Py.VFloat x => if Py.is_nan x then acc else (acc + x)%float
       | Py.VStr _ => acc
       end)
    xs 0%float.

Definition count (xs : list Py.scalar) : nat :=
  List.length
    (filter (fun v => match v with
                      | Py.VFloat x => negb (Py.is_nan x)
                      | Py.VStr _ => false
                      end) xs).

(** [series.mean()]; NaN on a series without entries. *)
Definition mean (xs : list Py.scalar) : float :=
  (sum xs / of_uint63 (Uint63.of_Z (Z.of_nat (count xs))))%float.

(** [len(df[df[name] == text])] *)
Definition count_eq (name text : string) (df : DataFrame) : option nat :=
  match column name df with
  | Some xs =>
      Some (List.length
              (filter (fun v => match v with
                                | Py.VStr s => String.eqb s text
                                | Py.VFloat _ => false
                                end) xs))
  | None => None
  end.

(** The text [to_csv] writes for one value: [str] as it is, a float by its
    [repr], NaN as the empty [na_rep]. *)
Definition value_text (v : Py.scalar) : string :=
  match v with
  | Py.VStr s => s
  | Py.VFloat x => if Py.is_nan x then "" else Py.float_repr x
  end.

(** [df.to_csv(index=False)] *)
Definition to_csv (df : DataFrame) : string :=
  Py.csv_line (columns df) ++
  String.concat "" (map (fun r => Py.csv_line (map value_text r)) (rows df)).

End Pd.

(** ** Reading the state *)

(** The inner dict of one cell, key by key in insertion order. *)
Definition cell_items (c : cell) : Py.dict Py.scalar :=
  [("type", Py.VStr (type c));
   ("voltage", Py.VFloat (voltage c));
   ("current", Py.VFloat (current c));
   ("temp", Py.VFloat (temp c));
   ("capacity", Py.VFloat (capacity c));
   ("status", Py.VStr (status c));
   ("created", Py.VStr (created c))].

(** [st.session_state.cells_data] as the Python object it is. *)
Definition cells_object (st : session_state) : Py.pyobj :=
  Py.PDict
    (map (fun kc =>
            (fst kc,
             Py.PDict (map (fun kv => (fst kv, Py.PVal (snd kv)))
                           (cell_items (snd kc)))))
         (cells_data st)).

(** [get_cells_dataframe] *)
Definition get_cells_dataframe (st : session_state) : Pd.DataFrame :=
  match cells_data st with
  | [] => Pd.empty
  | _ =>
      Pd.of_records
        (map (fun kc => ("Cell ID", Py.VStr (fst kc)) :: cell_items (snd kc))
             (cells_data st))
  end.

(** [export_data]; any other format falls through both branches and the
    method returns [None]. *)
Definition export_data (format : string) (st : session_state)
  : option string :=
  if String.eqb format "json" then
    Some (Py.json_dumps (cells_object st))
  else if String.eqb format "csv" then
    Some (Pd.to_csv (get_cells_dataframe st))
  else None.

(** ** The metrics row of [main] *)

Record metrics := mkMetrics {
  total_cells : nat;
  active_cells : nat;
  total_capacity : float;
  avg_temp : float;
  total_current : float
}.

(** What the main content area shows. *)
Inductive content :=
| QuickStart
| Dashboard (m : option metrics).

(** The five metrics computed from the frame; [None] when a column that they
    read is missing. *)
Definition compute_metrics (df : Pd.DataFrame) : option metrics :=
  match Pd.count_eq "status" "Active" df, Pd.column "capacity" df,
        Pd.column "temp" df, Pd.column "current" df with
  | Some active, Some cap, Some tmp, Some cur =>
      Some (mkMetrics (Pd.len df) active (Pd.sum cap) (Pd.mean tmp) (Pd.sum cur))
  | _, _, _, _ => None
  end.

(** The main content area of [main]: the quick-start view when there is no
    cell, the metrics row otherwise. *)
Definition main_content (st : session_state) : content :=
  match cells_data st with
  | [] => QuickStart
  | _ => Dashboard (compute_metrics (get_cells_dataframe st))
  end.

(** ** Definitions used in the statements *)

(** Sessions used as examples. *)
Definition eight_adds : list command :=
  [AddCell 25.0 "2024-01-01 10:00:00" "lfp";
   AddCell 26.0 "2024-01-01 10:00:01" "li-ion";
   AddCell 27.0 "2024-01-01 10:00:02" "nicad";
   AddCell 28.0 "2024-01-01 10:00:03" "nimh";
   AddCell 29.0 "2024-01-01 10:00:04" "lead-acid";
   AddCell 30.0 "2024-01-01 10:00:05" "lfp";
   AddCell 31.0 "2024-01-01 10:00:06" "lfp";
   AddCell 32.0 "2024-01-01 10:00:07" "lfp"].

Definition one_lfp : session_state :=
  run [AddCell 31.37 "2024-01-01 10:00:00" "lfp"] init.

Definition sample_session : list command :=
  [AddCell 31.37 "2024-01-01 10:00:00" "lfp";
   AddCell 25.05 "2024-01-01 10:00:01" "li-ion";
   UpdateCurrent "cell_1_lfp" 1.5;
   UpdateCurrent "cell_2_li-ion" 0.0;
   RemoveCell "cell_7_nimh";
   AddCell 39.99 "2024-01-01 10:00:02" "nimh"].

(** The three assignments of [update_cell_current] as one change of the
    stored cell. *)
Definition updated (current : float) (c : cell) : cell :=
  mkCell (type c) (voltage c) current (temp c)
         (Py.round (voltage c * current)%float 2)
         (if (0 <? current)%float then "Active" else "Standby")
         (created c).

(** Every stored current is at least zero. *)
Definition nonneg_currents (st : session_state) : bool :=
  forallb (fun c => (0 <=? current c)%float) (Py.values (cells_data st)).

(** The line that [to_csv] writes for one cell. *)
Definition csv_row (kc : string * cell) : string :=
  Py.csv_line
    [fst kc;
     type (snd kc);
     Pd.value_text (Py.VFloat (voltage (snd kc)));
     Pd.value_text (Py.VFloat (current (snd kc)));
     Pd.value_text (Py.VFloat (temp (snd kc)));
     Pd.value_text (Py.VFloat (capacity (snd kc)));
     status (snd kc);
     created (snd kc)].

(** The float written for [n] tenths lies between 25 and 40. *)
Definition tenths_in_range (n : Z) : bool :=
  ((25 <=? Py.nearest_float false n 10) &&
   (Py.nearest_float false n 10 <=? 40))%float.

(** The first character of [s], if there is one, fails [p]. *)
Definition head_fails (p : ascii -> bool) (s : string) : Prop :=
  match s with
  | "" => True
  | String c _ => p c = false
  end.

(** A Python object of this model: the keys of every dict are distinct. *)
Inductive wf_obj : Py.pyobj -> Prop :=
| wf_val v : wf_obj (Py.PVal v)
| wf_dict items :
    NoDup (Py.keys items) ->
    Forall (fun kv => wf_obj (snd kv)) items ->
    wf_obj (Py.PDict items).

(** Fuel that suffices to read an object back. *)
Fixpoint obj_size (o : Py.pyobj) : nat :=
  match o with
  | Py.PVal _ => 1
  | Py.PDict items => S (list_sum (map (fun kv => S (obj_size (snd kv))) items))
  end.

Definition members_size (items : list (string * Py.pyobj)) : nat :=
  list_sum (map (fun kv => S (obj_size (snd kv))) items).

(** One member of an object as [json.dumps] writes it. *)
Definition member_text (level : nat) (kv : string * Py.pyobj) : string :=
  Py.encode_string (fst kv) ++ ": " ++ Py.dumps (S level) (snd kv).

(** Reading the text of [o], followed by anything that cannot continue a
    number, gives [o] back and stops right behind it. *)
Definition reads_back (o : Py.pyobj) : Prop :=
  wf_obj o ->
  forall level fuel rest,
    (obj_size o <= fuel)%nat -> head_fails Py.is_numchar rest ->
    Py.scan_value fuel (Py.dumps level o ++ rest) = Some (o, rest).

(** Induction on objects, with the hypothesis for every value of a dict. *)
Fixpoint pyobj_induction (P : Py.pyobj -> Prop)
    (HV : forall v, P (Py.PVal v))
    (HD : forall items, Forall (fun kv => P (snd kv)) items -> P (Py.PDict items))
    (o : Py.pyobj) : P o :=
  match o with
  | Py.PVal v => HV v
  | Py.PDict items =>
      HD items
         ((fix go (l : list (string * Py.pyobj))
             : Forall (fun kv => P (snd kv)) l :=
             match l with
             | [] => Forall_nil _
             | kv :: l' =>
                 Forall_cons kv (pyobj_induction P HV HD (snd kv)) (go l')
             end) items)
  end.

(** ** The rest of the program *)

(** [st.session_state] as [__init__] finds it: either key may be missing. *)
Record session_keys := mkKeys {
  key_cells_data : option (Py.dict cell);
  key_cell_counter : option nat
}.

(** [__init__]: a key that is missing is created, one that is there is
    kept. *)
Definition __init__ (s : session_keys) : session_state :=
  mkState (match key_cells_data s with Some d => d | None => [] end)
          (match key_cell_counter s with Some n => n | None => 0 end).

(** The keys that a run leaves in the session for the next one. *)
Definition left_behind (st : session_state) : session_keys :=
  mkKeys (Some (cells_data st)) (Some (cell_counter st)).

(** The "Random Data" button of [main]: one pass over the ids, [draw i] being
    what the call of [random.uniform(0, 5)] in pass [i] returns. *)
Fixpoint random_data_from (i : nat) (draw : nat -> float) (ids : list string)
    (st : session_state) : session_state :=
  match ids with
  | [] => st
  | cell_id :: ids' =>
      let random_current := Py.round (draw i) 2 in
      random_data_from (S i) draw ids'
        (snd (update_cell_current cell_id random_current st))
  end.

Definition random_data (draw : nat -> float) (st : session_state)
  : session_state :=
  random_data_from 0 draw (Py.keys (cells_data st)) st.

(** The "Add 3 Random Cells" button: [n] passes are left, [choice i] is the
    type that [random.choice] returns in pass [i], [draw i] and [now i] the
    temperature draw and the timestamp of its [add_cell]; the loop breaks at
    the first refusal. *)
Fixpoint quick_random_from (n i : nat) (choice : nat -> string)
    (draw : nat -> float) (now : nat -> string) (st : session_state)
  : session_state :=
  match n with
  | O => st
  | S n' =>
      let '((success, _), st') := add_cell (draw i) (now i) (choice i) st in
      if success then quick_random_from n' (S i) choice draw now st'
      else st'
  end.

Definition quick_random (choice : nat -> string) (draw : nat -> float)
    (now : nat -> string) (st : session_state) : session_state :=
  quick_random_from 3 0 choice draw now st.


(** The options of the remove box: [df['Cell ID'].tolist()] when the frame
    has a row, no box otherwise. *)
Definition remove_options (df : Pd.DataFrame) : option (list Py.scalar) :=
  if (0 <? Pd.len df)%nat then Pd.column "Cell ID" df else Some [].



(** ** Definitions used in the further statements *)

(** What holds of a cell and its id in every state that the program reaches
    with the counter at [counter]. *)
Definition cell_ok (counter : nat) (kc : string * cell) : Prop :=
  (exists n, (1 <= n <= counter)%nat /\
             fst kc = make_cell_id n (type (snd kc))) /\
  voltage (snd kc) = Py.get_default (type (snd kc)) 3.6%float voltage_map /\
  capacity (snd kc) =
    Py.round (voltage (snd kc) * current (snd kc))%float 2 /\
  (status (snd kc) = "Ready" /\ current (snd kc) = 0%float \/
   status (snd kc) = "Active" /\ (0 <? current (snd kc))%float = true \/
   status (snd kc) = "Standby" /\ (0 <? current (snd kc))%float = false).

Definition registry_ok (st : session_state) : Prop :=
  NoDup (Py.keys (cells_data st)) /\
  Forall (cell_ok (cell_counter st)) (cells_data st).

(** Every cell with the current of pass [i], [S i], ... *)
Fixpoint randomized_from (i : nat) (draw : nat -> float) (d : Py.dict cell)
  : Py.dict cell :=
  match d with
  | [] => []
  | (k, c) :: d' =>
      (k, updated (Py.round (draw i) 2) c) :: randomized_from (S i) draw d'
  end.

Definition hundredths_in_range (n : Z) : bool :=
  ((0 <=? Py.nearest_float false n 100) &&
   (Py.nearest_float false n 100 <=? 5))%float.

Definition temperature_draw_ok (c : command) : bool :=
  match c with
  | AddCell draw _ _ => ((25 <=? draw) && (draw <=? 40))%float
  | _ => true
  end.

Definition no_clear (c : command) : bool :=
  match c with
  | ClearAll => false
  | _ => true
  end.

(** The cell that [add_cell] stores. *)
Definition new_cell (draw : float) (now ty : string) : cell :=
  mkCell ty (Py.get_default ty 3.6%float voltage_map) 0.0%float
         (Py.round draw 1) 0.0%float "Ready" now.

(** The row of the frame for one cell. *)
Definition frame_row (kc : string * cell) : list Py.scalar :=
  [Py.VStr (fst kc); Py.VStr (type (snd kc)); Py.VFloat (voltage (snd kc));
   Py.VFloat (current (snd kc)); Py.VFloat (temp (snd kc));
   Py.VFloat (capacity (snd kc)); Py.VStr (status (snd kc));
   Py.VStr (created (snd kc))].

(** An id whose number is at most the counter and that is not in the
    registry stays out of it while no command clears the session. *)
Definition retired (k : string) (st : session_state) : Prop :=
  (exists n ty, (n <= cell_counter st)%nat /\ k = make_cell_id n ty) /\
  Py.get k (cells_data st) = None.

(** The temperatures of a session all lie between 25 and 40 degrees. *)
Definition temperatures_in_range (st : session_state) : bool :=
  forallb (fun c => ((25 <=? temp c) && (temp c <=? 40))%float)
          (Py.values (cells_data st)).

(** * Properties *)

(** ** Dicts *)

Section DictFacts.
Context {V : Type}.
Implicit Types (d : Py.dict V) (k : string) (v : V).

Lemma get_set_same d k v : Py.get k (Py.set k v d) = Some v.
Proof.
  induction d as [|[k' v'] d IH]; simpl.
  - now rewrite String.eqb_refl.
  - destruct (String.eqb k k') eqn:E; simpl.
    + now rewrite String.eqb_refl.
    + now rewrite E.
Qed.

Lemma get_set_other d k k' v :
  k <> k' -> Py.get k' (Py.set k v d) = Py.get k' d.
Proof.
  intros Hne. induction d as [|[k0 v0] d IH]; simpl.
  - destruct (String.eqb_spec k' k); [congruence | reflexivity].
  - destruct (String.eqb_spec k k0) as [->|Hk]; simpl.
    + destruct (String.eqb_spec k' k0); [congruence | reflexivity].
    + destruct (String.eqb k' k0); [reflexivity | exact IH].
Qed.

Lemma set_fresh d k v :
  Py.get k d = None -> Py.set k v d = (d ++ [(k, v)])%list.
Proof.
  induction d as [|[k' v'] d IH]; simpl; [reflexivity|].
  destruct (String.eqb k k'); [discriminate|].
  intros H. now rewrite IH.
Qed.

Lemma len_set_le d k v : (Py.len (Py.set k v d) <= S (Py.len d))%nat.
Proof.
  unfold Py.len. induction d as [|[k' v'] d IH]; simpl; [lia|].
  destruct (String.eqb k k'); simpl; lia.
Qed.

Lemma len_del_le d k : (Py.len (Py.del k d) <= Py.len d)%nat.
Proof.
  unfold Py.len. induction d as [|[k' v'] d IH]; simpl; [lia|].
  destruct (String.eqb k k'); simpl; lia.
Qed.

Lemma len_modify d k f : Py.len (Py.modify k f d) = Py.len d.
Proof.
  unfold Py.len. induction d as [|[k' v'] d IH]; simpl; [reflexivity|].
  destruct (String.eqb k k'); simpl; congruence.
Qed.

Lemma keys_modify d k f : Py.keys (Py.modify k f d) = Py.keys d.
Proof.
  unfold Py.keys. induction d as [|[k' v'] d IH]; simpl; [reflexivity|].
  destruct (String.eqb k k'); simpl; congruence.
Qed.

Lemma get_modify_same d k f :
  Py.get k (Py.modify k f d) = option_map f (Py.get k d).
Proof.
  induction d as [|[k' v'] d IH]; simpl; [reflexivity|].
  destruct (String.eqb k k') eqn:E; simpl; now rewrite E.
Qed.

Lemma get_modify_other d k k' f :
  k <> k' -> Py.get k' (Py.modify k f d) = Py.get k' d.
Proof.
  intros Hne. induction d as [|[k0 v0] d IH]; simpl; [reflexivity|].
  destruct (String.eqb_spec k k0) as [->|Hk]; simpl.
  - destruct (String.eqb_spec k' k0); [congruence | reflexivity].
  - destruct (String.eqb k' k0); [reflexivity | exact IH].
Qed.

Lemma modify_modify d k f g :
  Py.modify k f (Py.modify k g d) = Py.modify k (fun x => f (g x)) d.
Proof.
  induction d as [|[k' v'] d IH]; simpl; [reflexivity|].
  destruct (String.eqb k k') eqn:E; simpl; rewrite E; [reflexivity|].
  now rewrite IH.
Qed.

Lemma modify_ext d k f g :
  (forall x, f x = g x) -> Py.modify k f d = Py.modify k g d.
Proof.
  intros H. induction d as [|[k' v'] d IH]; simpl; [reflexivity|].
  destruct (String.eqb k k'); [now rewrite H | now rewrite IH].
Qed.

Lemma modify_ext_at d k f g v :
  Py.get k d = Some v -> f v = g v -> Py.modify k f d = Py.modify k g d.
Proof.
  induction d as [|[k' v'] d IH]; simpl; [discriminate|].
  destruct (String.eqb k k').
  - intros [= ->] E. now rewrite E.
  - intros G E. now rewrite IH.
Qed.

Lemma get_none_not_in d k : Py.get k d = None <-> ~ In k (Py.keys d).
Proof.
  unfold Py.keys. induction d as [|[k' v'] d IH]; simpl.
  - tauto.
  - destruct (String.eqb_spec k k') as [->|Hk].
    + split; [discriminate | intros H; exfalso; apply H; now left].
    + rewrite IH. split; [intros H [E|I]; [congruence | tauto] | tauto].
Qed.

Lemma mem_get d k : Py.mem k d = false <-> Py.get k d = None.
Proof.
  unfold Py.mem. destruct (Py.get k d); split; congruence.
Qed.

Lemma keys_set_fresh d k v :
  Py.get k d = None -> Py.keys (Py.set k v d) = (Py.keys d ++ [k])%list.
Proof.
  intros H. rewrite set_fresh by exact H. unfold Py.keys.
  now rewrite map_app.
Qed.

Lemma keys_set_present d k v :
  Py.get k d <> None -> Py.keys (Py.set k v d) = Py.keys d.
Proof.
  unfold Py.keys. induction d as [|[k' v'] d IH]; simpl; [congruence|].
  destruct (String.eqb_spec k k') as [->|Hk]; simpl; [reflexivity|].
  intros H. now rewrite IH.
Qed.

Lemma in_keys_del d k k' : In k' (Py.keys (Py.del k d)) -> In k' (Py.keys d).
Proof.
  unfold Py.keys. induction d as [|[k0 v0] d IH]; simpl; [tauto|].
  destruct (String.eqb k k0); simpl; tauto.
Qed.

Lemma nodup_keys_del d k : NoDup (Py.keys d) -> NoDup (Py.keys (Py.del k d)).
Proof.
  induction d as [|[k0 v0] d IH]; simpl; [trivial|].
  intros H. inversion H as [|? ? Hn Hd]; subst.
  destruct (String.eqb k k0); simpl; [exact Hd|].
  constructor; [|now apply IH].
  intros I. apply Hn. eapply in_keys_del. exact I.
Qed.

Lemma nodup_keys_set d k v : NoDup (Py.keys d) -> NoDup (Py.keys (Py.set k v d)).
Proof.
  intros H. destruct (Py.get k d) eqn:G.
  - rewrite keys_set_present by congruence. exact H.
  - rewrite keys_set_fresh by exact G.
    apply NoDup_app; [exact H | repeat constructor; simpl; tauto |].
    intros x Hx [<-|[]]. now apply get_none_not_in in G.
Qed.
End DictFacts.

(** ** Identifiers *)

Lemma digits_sep_inj (d d' : Decimal.uint) (t t' : string) :
  NilEmpty.string_of_uint d ++ String "_" t =
  NilEmpty.string_of_uint d' ++ String "_" t' ->
  d = d' /\ t = t'.
Proof.
  revert d'. induction d; destruct d'; simpl; intros H;
    try discriminate;
    try (injection H as H; apply IHd in H; destruct H; split; congruence).
  injection H as H. now split.
Qed.

Lemma make_cell_id_inj (n n' : nat) (t t' : string) :
  make_cell_id n t = make_cell_id n' t' -> n = n' /\ t = t'.
Proof.
  unfold make_cell_id, Py.str_of_nat. simpl. intros H.
  injection H as H. apply digits_sep_inj in H. destruct H as [H1 H2].
  split; [|exact H2]. now apply DecimalNat.Unsigned.to_uint_inj.
Qed.

(** ** Float comparisons *)

Lemma eqb_zero_not_ltb (x : float) :
  (x =? 0)%float = true -> (0 <? x)%float = false.
Proof.
  rewrite eqb_spec, ltb_spec.
  change (Prim2SF 0%float) with (S754_zero false).
  destruct (Prim2SF x) as [s|s| |s m e]; try destruct s; simpl;
    intros H; try discriminate; reflexivity.
Qed.

Lemma ltb_zero_leb (x : float) :
  (0 <? x)%float = true -> (0 <=? x)%float = true.
Proof.
  rewrite leb_spec, ltb_spec.
  change (Prim2SF 0%float) with (S754_zero false).
  destruct (Prim2SF x) as [s|s| |s m e]; try destruct s; simpl;
    intros H; try discriminate; reflexivity.
Qed.

Lemma leb_zero_cases (x : float) :
  (0 <=? x)%float = true ->
  (0 <? x)%float = true \/ (x =? 0)%float = true.
Proof.
  rewrite leb_spec, ltb_spec, eqb_spec.
  change (Prim2SF 0%float) with (S754_zero false).
  destruct (Prim2SF x) as [s|s| |s m e]; try destruct s; simpl;
    intros H; try discriminate; auto.
Qed.

(** ** The registry *)

Lemma add_cell_full (draw : float) (now ty : string) (st : session_state) :
  (8 <= Py.len (cells_data st))%nat ->
  add_cell draw now ty st = ((false, "Maximum 8 cells reached!"), st).
Proof.
  intros H. unfold add_cell.
  destruct (Nat.leb_spec 8 (Py.len (cells_data st))); [reflexivity | lia].
Qed.

Lemma add_cell_room (draw : float) (now ty : string) (st : session_state) :
  (Py.len (cells_data st) < 8)%nat ->
  add_cell draw now ty st =
  ((true, "Added new cell: " ++ make_cell_id (cell_counter st + 1) ty),
   mkState
     (Py.set (make_cell_id (cell_counter st + 1) ty)
        (mkCell ty (Py.get_default ty 3.6%float voltage_map) 0.0%float
           (Py.round draw 1) 0.0%float "Ready" now)
        (cells_data st))
     (cell_counter st + 1)).
Proof.
  intros H. unfold add_cell.
  destruct (Nat.leb_spec 8 (Py.len (cells_data st))); [lia | reflexivity].
Qed.

Lemma step_len_bound (st : session_state) (c : command) :
  (Py.len (cells_data st) <= 8)%nat ->
  (Py.len (cells_data (step st c)) <= 8)%nat.
Proof.
  intros H. destruct c as [draw now ty|id|id cur|]; simpl.
  - unfold add_cell.
    destruct (Nat.leb_spec 8 (Py.len (cells_data st))); simpl; [exact H|].
    eapply Nat.le_trans; [apply len_set_le | lia].
  - unfold remove_cell. destruct (Py.mem id (cells_data st)); simpl; [|exact H].
    eapply Nat.le_trans; [apply len_del_le | exact H].
  - unfold update_cell_current.
    destruct (Py.get id (cells_data st)); simpl; [|exact H].
    now rewrite !len_modify.
  - unfold Py.len. simpl. lia.
Qed.

Lemma run_len_bound (cs : list command) (st : session_state) :
  (Py.len (cells_data st) <= 8)%nat ->
  (Py.len (cells_data (run cs st)) <= 8)%nat.
Proof.
  revert st. induction cs as [|c cs IH]; intros st H; simpl; [exact H|].
  apply IH. now apply step_len_bound.
Qed.

(** C1. Whatever commands have been run since the session started, the
    registry holds at most 8 cells; and when it holds 8, [add_cell] returns
    the failure outcome and the state (cells and counter) it was given. *)
Theorem registry_never_exceeds_eight
    (cs : list command) (draw : float) (now ty : string) :
  (Py.len (cells_data (run cs init)) <= 8)%nat /\
  (Py.len (cells_data (run cs init)) = 8%nat ->
   add_cell draw now ty (run cs init) =
   ((false, "Maximum 8 cells reached!"), run cs init)).
Proof.
  split.
  - apply run_len_bound. unfold Py.len. simpl. lia.
  - intros H. apply add_cell_full. lia.
Qed.

Lemma registry_never_exceeds_eight_witness :
  Py.len (cells_data (run eight_adds init)) = 8%nat /\
  add_cell 33.0 "2024-01-01 10:00:08" "lfp" (run eight_adds init) =
  ((false, "Maximum 8 cells reached!"), run eight_adds init).
Proof.
  split; [reflexivity|].
  apply (registry_never_exceeds_eight eight_adds). reflexivity.
Defined.

(** C7. For an id that is not in the registry, [remove_cell] and
    [update_cell_current] return their failure result and hand back the very
    state they were given: no cell and no counter has changed. *)
Theorem unknown_id_fails_without_change
    (st : session_state) (cell_id : string) (current : float) :
  Py.get cell_id (cells_data st) = None ->
  remove_cell cell_id st = ((false, "Cell not found!"), st) /\
  update_cell_current cell_id current st = (false, st).
Proof.
  intros H. unfold remove_cell, update_cell_current, Py.mem.
  now rewrite H.
Qed.

Lemma unknown_id_fails_without_change_witness :
  remove_cell "cell_9_lfp" (run eight_adds init) =
    ((false, "Cell not found!"), run eight_adds init) /\
  update_cell_current "cell_9_lfp" 1.5 (run eight_adds init) =
    (false, run eight_adds init).
Proof.
  apply (unknown_id_fails_without_change (run eight_adds init)).
  reflexivity.
Defined.

Lemma update_cell_current_present
    (st : session_state) (cell_id : string) (current : float) (c : cell) :
  Py.get cell_id (cells_data st) = Some c ->
  update_cell_current cell_id current st =
  (true, mkState (Py.modify cell_id (updated current) (cells_data st))
                 (cell_counter st)).
Proof.
  intros H. unfold update_cell_current. rewrite H.
  rewrite !modify_modify. do 2 f_equal.
  eapply modify_ext_at; [exact H | reflexivity].
Qed.

Lemma step_update_get
    (st : session_state) (cell_id : string) (current : float) (c : cell) :
  Py.get cell_id (cells_data st) = Some c ->
  Py.get cell_id (cells_data (snd (update_cell_current cell_id current st))) =
  Some (updated current c).
Proof.
  intros H. rewrite (update_cell_current_present _ _ _ _ H). simpl.
  rewrite get_modify_same, H. reflexivity.
Qed.

(** C2. For a cell that is in the registry and a current that is not below
    zero, right after [update_cell_current] the stored cell has that current,
    its voltage as before, capacity [round(voltage * current, 2)], and status
    "Active" when the current is above zero, "Standby" when it equals zero;
    one of the two is the case. *)
Theorem update_sets_capacity_and_status
    (st : session_state) (cell_id : string) (cur : float) (c : cell) :
  Py.get cell_id (cells_data st) = Some c ->
  (0 <=? cur)%float = true ->
  fst (update_cell_current cell_id cur st) = true /\
  exists c',
    Py.get cell_id (cells_data (snd (update_cell_current cell_id cur st)))
      = Some c' /\
    voltage c' = voltage c /\
    current c' = cur /\
    capacity c' = Py.round (voltage c' * current c')%float 2 /\
    ((0 <? cur)%float = true -> status c' = "Active") /\
    ((cur =? 0)%float = true -> status c' = "Standby") /\
    ((0 <? cur)%float = true \/ (cur =? 0)%float = true).
Proof.
  intros H Hcur. split.
  - now rewrite (update_cell_current_present _ _ _ _ H).
  - exists (updated cur c). split; [now apply step_update_get|].
    unfold updated; simpl. repeat split.
    + now intros ->.
    + intros E. now rewrite (eqb_zero_not_ltb _ E).
    + exact (leb_zero_cases _ Hcur).
Qed.

Lemma update_sets_capacity_and_status_witness :
  Py.get "cell_1_lfp" (cells_data one_lfp) =
    Some (mkCell "lfp" 3.2 0.0 31.4 0.0 "Ready" "2024-01-01 10:00:00") /\
  Py.get "cell_1_lfp"
    (cells_data (snd (update_cell_current "cell_1_lfp" 1.5 one_lfp))) =
    Some (mkCell "lfp" 3.2 1.5 31.4 4.8 "Active" "2024-01-01 10:00:00").
Proof.
  split; [vm_compute; reflexivity|].
  destruct (update_sets_capacity_and_status one_lfp "cell_1_lfp" 1.5
              (mkCell "lfp" 3.2 0.0 31.4 0.0 "Ready" "2024-01-01 10:00:00"))
    as [_ [c' [G _]]]; [vm_compute; reflexivity | reflexivity |].
  rewrite G. vm_compute in G. congruence.
Defined.

(** C10. Applying [update_cell_current] a second time with the same id and
    current returns the same result and leaves the state the first call
    produced. *)
Theorem update_cell_current_idempotent
    (st : session_state) (cell_id : string) (cur : float) :
  update_cell_current cell_id cur (snd (update_cell_current cell_id cur st)) =
  update_cell_current cell_id cur st.
Proof.
  destruct (Py.get cell_id (cells_data st)) as [c|] eqn:G.
  - rewrite (update_cell_current_present _ _ _ _ G). simpl.
    erewrite update_cell_current_present
      by (simpl; rewrite get_modify_same, G; reflexivity).
    simpl. rewrite modify_modify. reflexivity.
  - unfold update_cell_current at 2. rewrite G. simpl.
    unfold update_cell_current. now rewrite G.
Qed.

(** ** Stored currents *)

Section ForallValues.
  Context {V : Type} (p : V -> bool).
  Implicit Types (d : Py.dict V) (k : string) (v : V).

Lemma forallb_values_set d k v :
  forallb p (Py.values d) = true -> p v = true ->
  forallb p (Py.values (Py.set k v d)) = true.
Proof.
  unfold Py.values. intros Hd Hv.
  induction d as [|[k' v'] d IH]; simpl in *.
  - now rewrite Hv.
  - apply andb_true_iff in Hd as [H1 H2].
    destruct (String.eqb k k'); simpl.
    + now rewrite Hv, H2.
    + now rewrite H1, IH.
Qed.

Lemma forallb_values_del d k :
  forallb p (Py.values d) = true ->
  forallb p (Py.values (Py.del k d)) = true.
Proof.
  unfold Py.values. intros Hd.
  induction d as [|[k' v'] d IH]; simpl in *; [reflexivity|].
  apply andb_true_iff in Hd as [H1 H2].
  destruct (String.eqb k k'); simpl; [exact H2|].
  now rewrite H1, IH.
Qed.

Lemma forallb_values_modify d k f :
  forallb p (Py.values d) = true -> (forall v, p (f v) = true) ->
  forallb p (Py.values (Py.modify k f d)) = true.
Proof.
  unfold Py.values. intros Hd Hf.
  induction d as [|[k' v'] d IH]; simpl in *; [reflexivity|].
  apply andb_true_iff in Hd as [H1 H2].
  destruct (String.eqb k k'); simpl.
  - now rewrite Hf, H2.
  - now rewrite H1, IH.
Qed.
End ForallValues.

Lemma step_nonneg_currents (st : session_state) (c : command) :
  nonneg_command c = true ->
  nonneg_currents st = true -> nonneg_currents (step st c) = true.
Proof.
  unfold nonneg_currents. intros Hc H.
  destruct c as [draw now ty|id|id cur|]; simpl in *.
  - unfold add_cell. destruct (8 <=? Py.len (cells_data st))%nat; simpl;
      [exact H|].
    apply forallb_values_set; [exact H | reflexivity].
  - unfold remove_cell. destruct (Py.mem id (cells_data st)); simpl;
      [|exact H].
    now apply forallb_values_del.
  - destruct (Py.get id (cells_data st)) as [c|] eqn:G.
    + rewrite (update_cell_current_present _ _ _ _ G). simpl.
      apply forallb_values_modify; [exact H|]. intros v. exact Hc.
    + unfold update_cell_current. now rewrite G.
  - reflexivity.
Qed.

Lemma run_nonneg_currents (cs : list command) (st : session_state) :
  forallb nonneg_command cs = true ->
  nonneg_currents st = true -> nonneg_currents (run cs st) = true.
Proof.
  revert st. induction cs as [|c cs IH]; intros st Hcs H; simpl in *;
    [exact H|].
  apply andb_true_iff in Hcs as [Hc Hcs].
  apply IH; [exact Hcs|]. now apply step_nonneg_currents.
Qed.

(** C3, as the claim states it, fails: [update_cell_current] accepts a
    current below zero, reports success and stores it. *)
Lemma negative_current_is_stored :
  fst (update_cell_current "cell_1_lfp" (-1.0) one_lfp) = true /\
  Py.get "cell_1_lfp"
    (cells_data (snd (update_cell_current "cell_1_lfp" (-1.0) one_lfp))) =
    Some (mkCell "lfp" 3.2 (-1.0) 31.4 (-3.2) "Standby" "2024-01-01 10:00:00") /\
  nonneg_currents (snd (update_cell_current "cell_1_lfp" (-1.0) one_lfp))
    = false.
Proof. vm_compute. repeat split; reflexivity. Qed.

(** C3, amended. [update_cell_current] stores the current it is given,
    whatever its sign; when every update that has been issued carried a
    current of at least zero, as the updates of [main] do, every stored
    current is at least zero. *)
Theorem currents_nonneg_when_updates_are
    (cs : list command) (st : session_state) (cell_id : string)
    (cur : float) (c : cell) :
  (Py.get cell_id (cells_data st) = Some c ->
   option_map current
     (Py.get cell_id
        (cells_data (snd (update_cell_current cell_id cur st)))) = Some cur) /\
  (forallb nonneg_command cs = true ->
   nonneg_currents (run cs init) = true).
Proof.
  split.
  - intros G. now rewrite (step_update_get _ _ _ _ G).
  - intros H. now apply run_nonneg_currents.
Qed.

Lemma currents_nonneg_when_updates_are_witness :
  option_map current
    (Py.get "cell_1_lfp"
       (cells_data (snd (update_cell_current "cell_1_lfp" 2.5 one_lfp))))
    = Some 2.5%float /\
  nonneg_currents (run sample_session init) = true.
Proof.
  destruct (currents_nonneg_when_updates_are sample_session one_lfp
              "cell_1_lfp" 2.5
              (mkCell "lfp" 3.2 0.0 31.4 0.0 "Ready" "2024-01-01 10:00:00"))
    as [H1 H2].
  split; [apply H1; vm_compute; reflexivity | apply H2; reflexivity].
Defined.

(** ** The sequence counter *)

Lemma len_del_set_le {V : Type} (d : Py.dict V) (k : string) (v : V) :
  (Py.len (Py.del k (Py.set k v d)) <= Py.len d)%nat.
Proof.
  unfold Py.len. induction d as [|[k' v'] d IH]; simpl.
  - rewrite String.eqb_refl. simpl. lia.
  - destruct (String.eqb k k') eqn:E; simpl.
    + rewrite String.eqb_refl. lia.
    + rewrite E. simpl. lia.
Qed.

(** C5. A successful [add_cell] raises the counter by exactly one; a refused
    [add_cell], [remove_cell] and [update_cell_current] leave it alone; only
    "Clear All" sets it back to 0. So adding, removing that cell and adding
    again gives two different ids, with one cell in a registry that was empty
    before, and the first cell added after "Clear All" carries number 1. *)
Theorem counter_only_grows_until_clear
    (st : session_state) (draw1 draw2 : float) (now1 now2 ty1 ty2 : string)
    (cell_id : string) (cur : float) :
  ((Py.len (cells_data st) < 8)%nat ->
   cell_counter (snd (add_cell draw1 now1 ty1 st)) = (cell_counter st + 1)%nat) /\
  ((8 <= Py.len (cells_data st))%nat ->
   cell_counter (snd (add_cell draw1 now1 ty1 st)) = cell_counter st) /\
  cell_counter (snd (remove_cell cell_id st)) = cell_counter st /\
  cell_counter (snd (update_cell_current cell_id cur st)) = cell_counter st /\
  cell_counter (clear_all st) = 0%nat /\
  ((Py.len (cells_data st) < 8)%nat ->
   let id1 := make_cell_id (cell_counter st + 1) ty1 in
   let st1 := snd (add_cell draw1 now1 ty1 st) in
   let st2 := snd (remove_cell id1 st1) in
   let id2 := make_cell_id (cell_counter st2 + 1) ty2 in
   let st3 := snd (add_cell draw2 now2 ty2 st2) in
   fst (fst (remove_cell id1 st1)) = true /\
   fst (fst (add_cell draw2 now2 ty2 st2)) = true /\
   Py.mem id2 (cells_data st3) = true /\
   id1 <> id2 /\
   (cells_data st = [] -> Py.len (cells_data st3) = 1%nat)) /\
  (fst (add_cell draw1 now1 ty1 (clear_all st)) =
     (true, "Added new cell: cell_1_" ++ ty1) /\
   Py.keys (cells_data (snd (add_cell draw1 now1 ty1 (clear_all st)))) =
     ["cell_1_" ++ ty1] /\
   cell_counter (snd (add_cell draw1 now1 ty1 (clear_all st))) = 1%nat).
Proof.
  split; [intros H; now rewrite (add_cell_room _ _ _ _ H)|].
  split; [intros H; now rewrite (add_cell_full _ _ _ _ H)|].
  split; [unfold remove_cell; now destruct (Py.mem cell_id (cells_data st))|].
  split; [unfold update_cell_current;
          now destruct (Py.get cell_id (cells_data st))|].
  split; [reflexivity|].
  split; [|repeat split].
  intros H. cbv zeta.
  rewrite (add_cell_room _ _ _ _ H). cbn [snd].
  set (id1 := make_cell_id (cell_counter st + 1) ty1).
  set (c1 := mkCell ty1 _ _ _ _ _ _).
  assert (R : remove_cell id1 (mkState (Py.set id1 c1 (cells_data st))
                                 (cell_counter st + 1)) =
              ((true, "Removed cell: " ++ id1),
               mkState (Py.del id1 (Py.set id1 c1 (cells_data st)))
                       (cell_counter st + 1))).
  { unfold remove_cell, Py.mem. cbn [cells_data cell_counter].
    now rewrite get_set_same. }
  rewrite R. cbn [fst snd cell_counter].
  assert (L : (Py.len (cells_data
                 (mkState (Py.del id1 (Py.set id1 c1 (cells_data st)))
                          (cell_counter st + 1))) < 8)%nat).
  { cbn [cells_data]. pose proof (len_del_set_le (cells_data st) id1 c1). lia. }
  rewrite (add_cell_room _ _ _ _ L). cbn [fst snd cells_data cell_counter].
  split; [reflexivity|]. split; [reflexivity|].
  split; [unfold Py.mem; now rewrite get_set_same|].
  split.
  - unfold id1. intros E. apply make_cell_id_inj in E. lia.
  - intros E. rewrite E. unfold Py.len. simpl.
    rewrite String.eqb_refl. reflexivity.
Qed.

Lemma counter_only_grows_until_clear_witness :
  (Py.len (cells_data init) < 8)%nat /\
  "cell_1_lfp" <> "cell_2_lfp" /\
  Py.len (cells_data (run [AddCell 31.37 "2024-01-01 10:00:00" "lfp";
                           RemoveCell "cell_1_lfp";
                           AddCell 25.05 "2024-01-01 10:00:01" "lfp"] init))
  = 1%nat.
Proof.
  assert (L : (Py.len (cells_data init) < 8)%nat) by (unfold Py.len; simpl; lia).
  split; [exact L|].
  destruct (counter_only_grows_until_clear init 31.37 25.05
              "2024-01-01 10:00:00" "2024-01-01 10:00:01" "lfp" "lfp"
              "cell_1_lfp" 0) as (_ & _ & _ & _ & _ & H & _).
  destruct (H L) as (_ & _ & _ & N & E).
  split; [exact N | exact (E eq_refl)].
Defined.

(** ** The metrics row *)

Lemma compute_metrics_nonempty (st : session_state) :
  cells_data st <> [] ->
  exists m, compute_metrics (get_cells_dataframe st) = Some m /\
            total_cells m = Py.len (cells_data st).
Proof.
  unfold get_cells_dataframe. destruct (cells_data st) as [|kc d]; [congruence|].
  intros _. unfold compute_metrics, Pd.count_eq, Pd.column, Pd.of_records.
  simpl. eexists. split; [reflexivity|].
  unfold Pd.len, Py.len, Py.values. simpl. now rewrite !length_map.
Qed.

(** C6, as the claim states it, fails: on the empty snapshot no average
    temperature and no total capacity of 0 is returned. [main] shows the
    quick-start view, the frame has no column to aggregate, and the mean of a
    series without entries is NaN. *)
Lemma empty_snapshot_yields_no_zero_average :
  main_content init = QuickStart /\
  main_content (snd (remove_cell "cell_1_lfp" one_lfp)) = QuickStart /\
  compute_metrics (get_cells_dataframe init) = None /\
  Pd.column "temp" (get_cells_dataframe init) = None /\
  Pd.column "capacity" (get_cells_dataframe init) = None /\
  Py.is_nan (Pd.mean []) = true.
Proof. vm_compute. repeat split; reflexivity. Qed.

(** C6, amended. On the empty snapshot no aggregate is computed at all:
    [main] shows the quick-start view, also after the last cell has been
    removed, and the frame of [get_cells_dataframe] has no column, so nothing
    is divided. The aggregates are computed exactly when there is a cell. *)
Theorem metrics_exist_only_with_cells (st : session_state) :
  (cells_data st = [] ->
   main_content st = QuickStart /\
   get_cells_dataframe st = Pd.empty /\
   compute_metrics (get_cells_dataframe st) = None) /\
  (forall cell_id c,
     cells_data st = [(cell_id, c)] ->
     fst (fst (remove_cell cell_id st)) = true /\
     main_content (snd (remove_cell cell_id st)) = QuickStart) /\
  (cells_data st <> [] ->
   exists m, main_content st = Dashboard (Some m) /\
             total_cells m = Py.len (cells_data st)).
Proof.
  split; [|split].
  - unfold main_content, get_cells_dataframe. intros ->. repeat split.
  - intros cell_id c E. unfold remove_cell, Py.mem, main_content.
    rewrite E. simpl. rewrite String.eqb_refl. simpl.
    rewrite ?String.eqb_refl. split; reflexivity.
  - intros H. destruct (compute_metrics_nonempty st H) as [m [E L]].
    exists m. split; [|exact L].
    unfold main_content. rewrite E.
    destruct (cells_data st); [congruence | reflexivity].
Qed.

Lemma metrics_exist_only_with_cells_witness :
  main_content init = QuickStart /\
  main_content (snd (remove_cell "cell_1_lfp" one_lfp)) = QuickStart /\
  exists m, main_content one_lfp = Dashboard (Some m) /\ total_cells m = 1%nat.
Proof.
  split; [|split].
  - apply (metrics_exist_only_with_cells init). reflexivity.
  - eapply (metrics_exist_only_with_cells one_lfp). reflexivity.
  - apply (metrics_exist_only_with_cells one_lfp). discriminate.
Defined.

(** ** Strings *)

Lemma append_assoc (a b c : string) : (a ++ b) ++ c = a ++ (b ++ c).
Proof. induction a as [|x a IH]; simpl; [reflexivity | now rewrite IH]. Qed.

Lemma append_nil_r (a : string) : a ++ "" = a.
Proof. induction a as [|x a IH]; simpl; [reflexivity | now rewrite IH]. Qed.

Lemma length_append (a b : string) :
  String.length (a ++ b) = (String.length a + String.length b)%nat.
Proof. induction a as [|x a IH]; simpl; [reflexivity | now rewrite IH]. Qed.

(** ** The delimited-text export *)

(** C8, as the claim states it, fails: the header row of the export is not
    the one the claim gives, and the export of the empty snapshot has no
    header names at all. *)
Lemma csv_header_is_not_the_claimed_one :
  export_data "csv" one_lfp =
    Some ("Cell ID,type,voltage,current,temp,capacity,status,created"
          ++ String Py.newline
             ("cell_1_lfp,lfp,3.2,0.0,31.4,0.0,Ready,2024-01-01 10:00:00"
              ++ String Py.newline "")) /\
  option_map
    (String.prefix
       "CellID,chemistry,nominalVoltage,current,temperature,capacity,status,createdAt")
    (export_data "csv" one_lfp) = Some false /\
  export_data "csv" init = Some (String Py.newline "").
Proof. vm_compute. repeat split; reflexivity. Qed.

(** C8, amended. For every snapshot with at least one cell, the
    delimited-text export is the header row
    [Cell ID,type,voltage,current,temp,capacity,status,created] followed by
    exactly one row per cell, in insertion order. *)
Theorem csv_export_rows_follow_cells (st : session_state) :
  cells_data st <> [] ->
  export_data "csv" st =
  Some ("Cell ID,type,voltage,current,temp,capacity,status,created"
        ++ String Py.newline
             (String.concat "" (map csv_row (cells_data st)))) /\
  List.length (Pd.rows (get_cells_dataframe st)) = Py.len (cells_data st).
Proof.
  intros H. unfold export_data, get_cells_dataframe. simpl.
  destruct (cells_data st) as [|kc d]; [congruence|].
  split.
  - unfold Pd.to_csv, Pd.of_records. f_equal.
    cbn [Pd.columns Pd.rows].
    replace (Py.csv_line _) with
      ("Cell ID,type,voltage,current,temp,capacity,status,created"
       ++ String Py.newline "") by reflexivity.
    rewrite append_assoc. f_equal. cbn [append]. f_equal.
    unfold Py.values. rewrite !map_map. f_equal.
  - unfold Pd.of_records, Py.len. simpl. now rewrite !length_map.
Qed.

Lemma csv_export_rows_follow_cells_witness :
  export_data "csv" (run sample_session init) =
  Some ("Cell ID,type,voltage,current,temp,capacity,status,created"
        ++ String Py.newline
             (String.concat "" (map csv_row (cells_data (run sample_session init))))).
Proof.
  apply (csv_export_rows_follow_cells (run sample_session init)).
  discriminate.
Defined.

(** ** Floats and their text *)

Open Scope Z_scope.
Lemma iter_pos_iter {A} (f : A -> A) (p : positive) (x : A) :
  iter_pos f p x = Pos.iter f x p.
Proof.
  revert x. induction p as [p IH|p IH|]; intros x; simpl.
  - rewrite !IH. now rewrite !Pos.iter_swap.
  - now rewrite !IH.
  - reflexivity.
Qed.

Lemma shr_exact (m p : positive) :
  iter_pos shr_1 p (Build_shr_record (Zpos (Pos.iter xO m p)) false false) =
  Build_shr_record (Zpos m) false false.
Proof.
  rewrite iter_pos_iter.
  induction p as [|p IH] using Pos.peano_ind.
  - reflexivity.
  - rewrite (Pos.iter_succ p _ xO m), Pos.iter_succ_r. exact IH.
Qed.

Lemma digits2_iter_xO (m p : positive) :
  Zpos (digits2_pos (Pos.iter xO m p)) = Zpos (digits2_pos m) + Zpos p.
Proof.
  induction p as [|p IH] using Pos.peano_ind.
  - simpl. lia.
  - rewrite Pos.iter_succ. simpl digits2_pos. lia.
Qed.

Lemma Zpos_iter_xO (m p : positive) :
  Zpos (Pos.iter xO m p) = Zpos m * 2 ^ Zpos p.
Proof.
  induction p as [|p IH] using Pos.peano_ind.
  - simpl. lia.
  - rewrite Pos.iter_succ, Pos2Z.inj_succ, Z.pow_succ_r by lia.
    rewrite Pos2Z.inj_xO, IH. ring.
Qed.

Lemma digits2_spec (p : positive) :
  2 ^ (Zpos (digits2_pos p) - 1) <= Zpos p < 2 ^ Zpos (digits2_pos p).
Proof.
  induction p as [p IH|p IH|]; simpl digits2_pos.
  - rewrite Pos2Z.inj_succ, Z.pow_succ_r by lia.
    replace (Z.succ (Zpos (digits2_pos p)) - 1) with (Z.succ (Zpos (digits2_pos p) - 1)) by lia.
    rewrite Z.pow_succ_r by lia. lia.
  - rewrite Pos2Z.inj_succ, Z.pow_succ_r by lia.
    replace (Z.succ (Zpos (digits2_pos p)) - 1) with (Z.succ (Zpos (digits2_pos p) - 1)) by lia.
    rewrite Z.pow_succ_r by lia. lia.
  - simpl. lia.
Qed.

Lemma digits2_mul_le (a b : positive) :
  Zpos (digits2_pos (a * b)) <= Zpos (digits2_pos a) + Zpos (digits2_pos b).
Proof.
  pose proof (digits2_spec a) as [_ Ha].
  pose proof (digits2_spec b) as [_ Hb].
  pose proof (digits2_spec (a * b)) as [Hab _].
  destruct (Z.le_gt_cases (Zpos (digits2_pos (a * b))) (Zpos (digits2_pos a) + Zpos (digits2_pos b))) as [L|G]; [exact L|].
  exfalso.
  assert (2 ^ (Zpos (digits2_pos a) + Zpos (digits2_pos b)) <= 2 ^ (Zpos (digits2_pos (a * b)) - 1))
    by (apply Z.pow_le_mono_r; lia).
  rewrite Z.pow_add_r in H by lia.
  rewrite Pos2Z.inj_mul in Hab.
  assert (Zpos a * Zpos b < 2 ^ Zpos (digits2_pos a) * 2 ^ Zpos (digits2_pos b)).
  { apply Z.mul_lt_mono_nonneg; lia. }
  lia.
Qed.

(** A canonical mantissa and exponent, scaled up by a power of two and rounded, comes back. *)
Lemma binary_round_aux_exact (s : bool) (m : positive) (e t : Z) :
  bounded prec emax m e = true -> 0 <= t ->
  binary_round_aux prec emax s (Zpos m * 2 ^ t) (e - t) loc_Exact =
  S754_finite s m e.
Proof.
  unfold bounded, canonical_mantissa. intros B Ht.
  apply andb_true_iff in B as [C L]. apply Z.eqb_eq in C.
  assert (S2 : shr_fexp prec emax (Zpos m) e loc_Exact =
               (Build_shr_record (Zpos m) false false, e)).
  { unfold shr_fexp. simpl Zdigits2. rewrite C, Z.sub_diag. reflexivity. }
  unfold binary_round_aux.
  destruct t as [|p|p]; [| |lia].
  - rewrite Z.pow_0_r, Z.mul_1_r, Z.sub_0_r.
    rewrite S2. cbn [shr_m round_nearest_even loc_of_shr_record]. rewrite S2. cbn [shr_m]. now rewrite L.
  - rewrite <- Zpos_iter_xO.
    assert (S1 : shr_fexp prec emax (Zpos (Pos.iter xO m p)) (e - Zpos p) loc_Exact =
               (Build_shr_record (Zpos m) false false, e)).
    { unfold shr_fexp. simpl Zdigits2. rewrite digits2_iter_xO.
      replace (Zpos (digits2_pos m) + Zpos p + (e - Zpos p)) with (Zpos (digits2_pos m) + e) by lia.
      rewrite C. replace (e - (e - Zpos p)) with (Zpos p) by lia.
      unfold shr. simpl shr_record_of_loc. rewrite shr_exact. f_equal. lia. }
    rewrite S1. cbn [shr_m round_nearest_even loc_of_shr_record]. rewrite S2. cbn [shr_m]. now rewrite L.
Qed.

Lemma div_eucl_exact (x : Z) (b : positive) :
  Z.div_eucl (x * Zpos b) (Zpos b) = (x, 0).
Proof.
  pose proof (Z.div_mul x (Zpos b)) as Hq.
  pose proof (Z.mod_mul x (Zpos b)) as Hr.
  unfold Z.div, Z.modulo in Hq, Hr.
  destruct (Z.div_eucl (x * Zpos b) (Zpos b)) as [q r].
  simpl in Hq, Hr. rewrite Hq, Hr by lia. reflexivity.
Qed.

Lemma new_location_exact (b : Z) : new_location b 0 = loc_Exact.
Proof. unfold new_location. destruct (Z.even b); reflexivity. Qed.

Lemma SFdiv_exact (s : bool) (m : positive) (e : Z) (a b : positive) :
  bounded prec emax m e = true ->
  (0 <= e -> Zpos a = Zpos m * 2 ^ e * Zpos b) ->
  (e < 0 -> Zpos a * 2 ^ (- e) = Zpos m * Zpos b) ->
  SFdiv prec emax (S754_finite s a 0) (S754_finite false b 0) =
  S754_finite s m e.
Proof.
  intros B Hpos Hneg.
  assert (C : fexp prec emax (Zpos (digits2_pos m) + e) = e).
  { unfold bounded, canonical_mantissa in B.
    apply andb_true_iff in B as [C _]. now apply Z.eqb_eq in C. }
  unfold SFdiv, SFdiv_core_binary. simpl Zdigits2.
  set (e' := Z.min (fexp prec emax (Zpos (digits2_pos a) + 0 - (Zpos (digits2_pos b) + 0))) (0 - 0)).
  assert (E0 : e' <= 0) by (unfold e'; lia).
  assert (E1 : e' <= e).
  { destruct (Z.le_gt_cases 0 e) as [L|G]; [lia|].
    specialize (Hneg G).
    destruct e as [|p|p]; try lia.
    change (- Zneg p) with (Zpos p) in Hneg.
    rewrite <- Zpos_iter_xO, <- Pos2Z.inj_mul in Hneg.
    injection Hneg as Hneg.
    pose proof (digits2_iter_xO a p) as D1. rewrite Hneg in D1.
    pose proof (digits2_mul_le m b) as D2.
    unfold e'. unfold fexp, SpecFloat.emin, prec, emax in *. lia. }
  set (t := e - e').
  assert (M : match 0 - 0 - e' with
              | Zpos _ => Z.shiftl (Zpos a) (0 - 0 - e')
              | 0 => Zpos a
              | Zneg _ => 0
              end = (Zpos m * 2 ^ t) * Zpos b).
  { assert (A : Zpos a * 2 ^ (- e') = (Zpos m * 2 ^ t) * Zpos b).
    { destruct (Z.le_gt_cases 0 e) as [L|G].
      - rewrite (Hpos L). unfold t.
        replace (e - e') with (e + - e') by lia.
        rewrite Z.pow_add_r by lia. ring.
      - replace (- e') with (- e + t) by (unfold t; lia).
        rewrite Z.pow_add_r by (unfold t; lia).
        rewrite Z.mul_assoc, (Hneg G). ring. }
    rewrite <- A. replace (0 - 0 - e') with (- e') by lia.
    destruct (- e') as [|p|p] eqn:Ep; try lia.
    rewrite Z.shiftl_mul_pow2 by lia. reflexivity. }
  rewrite M, div_eucl_exact, new_location_exact, xorb_false_r.
  replace e' with (e - t) by (unfold t; lia).
  apply binary_round_aux_exact; [exact B | unfold t; lia].
Qed.
(** ** Temperatures *)

Lemma round_half_even_bounds (a b lo hi : Z) :
  0 < b -> lo * b <= a <= hi * b ->
  lo <= Py.round_half_even a b <= hi.
Proof.
  intros Hb [Hlo Hhi]. unfold Py.round_half_even. cbv zeta.
  pose proof (Z.div_mod a b ltac:(lia)) as E.
  pose proof (Z.mod_pos_bound a b Hb) as R.
  assert (Q1 : lo <= a / b) by (apply Z.div_le_lower_bound; lia).
  assert (Q2 : a / b <= hi) by (apply Z.div_le_upper_bound; lia).
  destruct (Z.eq_dec (a / b) hi) as [Hq|Hq].
  - assert (H : a mod b = 0) by (rewrite Hq in E; lia).
    rewrite H. change (2 * 0) with 0.
    destruct (Z.compare_spec 0 b) as [C|C|C]; [exfalso; lia | lia | exfalso; lia].
  - destruct (2 * (a mod b) ?= b); [destruct (Z.even (a / b))| |]; lia.
Qed.

Lemma SFleb_finite_pos (m1 m2 : positive) (e1 e2 : Z) :
  SFleb (S754_finite false m1 e1) (S754_finite false m2 e2) = true ->
  e1 < e2 \/ (e1 = e2 /\ Zpos m1 <= Zpos m2).
Proof.
  unfold SFleb, SFcompare.
  destruct (Z.compare_spec e1 e2) as [E|E|E]; [|now left|discriminate].
  intros H. right. split; [exact E|].
  change (Pos.compare_cont Eq m1 m2) with (Pos.compare m1 m2) in H.
  destruct (Pos.compare_spec m1 m2); try discriminate; lia.
Qed.

(** A binary64 whose exponent lies above the smallest one has a full
    mantissa of 53 bits. *)
Lemma normal_mantissa (m : positive) (e : Z) :
  bounded prec emax m e = true -> -1074 < e ->
  2 ^ 52 <= Zpos m < 2 ^ 53.
Proof.
  unfold bounded, canonical_mantissa. intros B He.
  apply andb_true_iff in B as [C _]. apply Z.eqb_eq in C.
  unfold fexp, SpecFloat.emin, prec, emax in C.
  assert (Hd : Zpos (digits2_pos m) = 53) by lia.
  pose proof (digits2_spec m) as D. rewrite Hd in D. exact D.
Qed.

Lemma between_25_and_40 (x : float) (m25 m40 : positive) :
  Prim2SF 25%float = S754_finite false m25 (-48) ->
  Prim2SF 40%float = S754_finite false m40 (-47) ->
  (25 <=? x)%float = true -> (x <=? 40)%float = true ->
  exists m e,
    Prim2SF x = S754_finite false m e /\
    ((e = -48 /\ Zpos m25 <= Zpos m < 2 ^ 53) \/
     (e = -47 /\ 2 ^ 52 <= Zpos m <= Zpos m40)).
Proof.
  intros E25 E40. rewrite !leb_spec, E25, E40.
  pose proof (Prim2SF_valid x) as V.
  destruct (Prim2SF x) as [s|s| |s m e]; try destruct s;
    try (intros H; discriminate H); try (intros _ H; discriminate H).
  intros H1 H2. exists m, e. split; [reflexivity|].
  apply SFleb_finite_pos in H1. apply SFleb_finite_pos in H2.
  assert (He : -1074 < e) by lia.
  pose proof (normal_mantissa m e V He) as N.
  destruct H1 as [H1|[H1 M1]]; destruct H2 as [H2|[H2 M2]]; lia.
Qed.

Lemma tenths_between_25_and_40 (n : Z) :
  250 <= n <= 400 -> tenths_in_range n = true.
Proof.
  intros H.
  assert (A : forallb tenths_in_range
                (map (fun k => Z.of_nat k) (seq 250 151)) = true)
    by (vm_compute; reflexivity).
  rewrite forallb_forall in A. apply A.
  apply in_map_iff. exists (Z.to_nat n). split; [lia|].
  apply in_seq. lia.
Qed.

(** Rounding a float between 25 and 40 to one decimal gives a float between
    25 and 40. *)
Lemma round1_between_25_and_40 (x : float) :
  (25 <=? x)%float = true -> (x <=? 40)%float = true ->
  (25 <=? Py.round x 1)%float = true /\ (Py.round x 1 <=? 40)%float = true.
Proof.
  intros H1 H2.
  assert (E25 : Prim2SF 25%float = S754_finite false 7036874417766400 (-48))
    by (vm_compute; reflexivity).
  assert (E40 : Prim2SF 40%float = S754_finite false 5629499534213120 (-47))
    by (vm_compute; reflexivity).
  destruct (between_25_and_40 x _ _ E25 E40 H1 H2) as (m & e & E & B).
  unfold Py.round. rewrite E.
  change (10 ^ Z.of_nat 1) with 10.
  assert (N : e < 0 /\ 250 <= Py.round_half_even (Zpos m * 10) (2 ^ (- e)) <= 400).
  { destruct B as [[-> B]|[-> B]]; (split; [lia|]).
    - change (- -48) with 48. apply round_half_even_bounds; lia.
    - change (- -47) with 47. apply round_half_even_bounds; lia. }
  destruct N as [L N].
  destruct (Z.leb_spec 0 e) as [L'|_]; [lia|].
  pose proof (tenths_between_25_and_40 _ N) as T.
  unfold tenths_in_range in T. apply andb_true_iff in T.
  exact T.
Qed.

Close Scope Z_scope.

(** C4. When there is room, [add_cell] succeeds and stores, under the new id,
    a cell with current 0, capacity 0, status "Ready", the voltage of its
    chemistry in the table (3.6 for a chemistry that is not in it) and the
    temperature draw rounded to one decimal, which lies between 25 and 40
    when the draw does. *)
Theorem add_cell_creates_ready_cell
    (st : session_state) (draw : float) (now ty : string) :
  (Py.len (cells_data st) < 8)%nat ->
  fst (fst (add_cell draw now ty st)) = true /\
  Py.get (make_cell_id (cell_counter st + 1) ty)
    (cells_data (snd (add_cell draw now ty st))) =
  Some {| type := ty;
          voltage :=
            if String.eqb ty "lfp" then 3.2%float
            else if String.eqb ty "li-ion" then 3.6%float
            else if String.eqb ty "nicad" then 1.2%float
            else if String.eqb ty "nimh" then 1.2%float
            else if String.eqb ty "lead-acid" then 2.0%float
            else 3.6%float;
          current := 0%float;
          temp := Py.round draw 1;
          capacity := 0%float;
          status := "Ready";
          created := now |} /\
  ((25 <=? draw)%float = true -> (draw <=? 40)%float = true ->
   (25 <=? Py.round draw 1)%float = true /\
   (Py.round draw 1 <=? 40)%float = true).
Proof.
  intros H. rewrite (add_cell_room _ _ _ _ H). simpl.
  split; [reflexivity|]. split; [|apply round1_between_25_and_40].
  rewrite get_set_same.
  unfold Py.get_default, voltage_map. simpl.
  repeat match goal with
         | |- context [String.eqb ty ?x] => destruct (String.eqb ty x)
         end; reflexivity.
Qed.

Lemma add_cell_creates_ready_cell_witness :
  Py.get "cell_1_unobtainium"
    (cells_data (snd (add_cell 31.37 "2024-01-01 10:00:00" "unobtainium" init)))
  = Some (mkCell "unobtainium" 3.6 0 31.4 0 "Ready" "2024-01-01 10:00:00") /\
  (25 <=? Py.round 31.37 1)%float = true /\
  (Py.round 31.37 1 <=? 40)%float = true.
Proof.
  destruct (add_cell_creates_ready_cell init 31.37 "2024-01-01 10:00:00"
              "unobtainium") as (_ & H & R); [unfold Py.len; simpl; lia|].
  split; [exact H|]. apply R; reflexivity.
Defined.


Lemma span_app (p : ascii -> bool) (a rest : string) :
  Py.all_chars p a = true -> head_fails p rest ->
  Py.span p (a ++ rest) = (a, rest).
Proof.
  intros Ha Hr. induction a as [|c a IH]; simpl in *.
  - destruct rest as [|c r]; simpl in *; [reflexivity | now rewrite Hr].
  - apply andb_true_iff in Ha as [Hc Ha]. rewrite Hc, (IH Ha). reflexivity.
Qed.

Lemma all_chars_app (p : ascii -> bool) (a b : string) :
  Py.all_chars p (a ++ b) = Py.all_chars p a && Py.all_chars p b.
Proof.
  induction a as [|c a IH]; simpl; [reflexivity|].
  now rewrite IH, andb_assoc.
Qed.

Lemma all_chars_weaken (p q : ascii -> bool) (a : string) :
  (forall c, p c = true -> q c = true) ->
  Py.all_chars p a = true -> Py.all_chars q a = true.
Proof.
  intros H. induction a as [|c a IH]; simpl; [reflexivity|].
  intros E. apply andb_true_iff in E as [E1 E2].
  now rewrite (H _ E1), IH.
Qed.

Lemma digits_all_digit (d : Decimal.uint) :
  Py.all_chars Py.is_digit (NilEmpty.string_of_uint d) = true.
Proof. induction d; simpl; auto. Qed.

Lemma str_of_N_digits (n : N) : Py.all_chars Py.is_digit (Py.str_of_N n) = true.
Proof. apply digits_all_digit. Qed.

Lemma N_of_str_of_N (n : N) : Py.N_of_str (Py.str_of_N n) = Some n.
Proof.
  unfold Py.N_of_str, Py.str_of_N. rewrite NilEmpty.usu. simpl.
  now rewrite DecimalN.Unsigned.of_to.
Qed.

Lemma str_of_N_nonempty (n : N) : Py.str_of_N n <> "".
Proof.
  unfold Py.str_of_N. destruct n as [|p]; [discriminate|].
  simpl. pose proof (DecimalPos.Unsigned.to_uint_nonnil p) as H.
  destruct (Pos.to_uint p); try congruence; discriminate.
Qed.

Lemma str_of_pos_head (p : positive) :
  exists c r, Py.str_of_N (Npos p) = String c r /\
              Py.is_digit c = true /\ c <> "0"%char.
Proof.
  unfold Py.str_of_N. simpl N.to_uint.
  assert (U : Pos.to_uint p = Decimal.unorm (Pos.to_uint p)).
  { rewrite <- DecimalPos.Unsigned.to_of, DecimalPos.Unsigned.of_to. reflexivity. }
  pose proof (DecimalPos.Unsigned.to_uint_nonzero p) as NZ.
  assert (H : Pos.to_uint p = Decimal.nzhead (Pos.to_uint p)).
  { rewrite U at 1. apply unorm_nzhead. intros E.
    apply NZ. rewrite U. now apply unorm_0. }
  pose proof (nzhead_nonzero (Pos.to_uint p)) as ND. rewrite <- H in ND.
  pose proof (DecimalPos.Unsigned.to_uint_nonnil p) as NN.
  destruct (Pos.to_uint p) as [|u|u|u|u|u|u|u|u|u|u]; simpl;
    try congruence;
    try (eexists; eexists; split; [reflexivity | split; [reflexivity | discriminate]]).

Qed.

Lemma exponent_of_text (neg : bool) (n : N) :
  Py.exponent_of_string
    (String "e" (String (if neg then "-" else "+")%char (Py.str_of_N n))) =
  Some (if neg then (- Z.of_N n)%Z else Z.of_N n).
Proof.
  unfold Py.exponent_of_string.
  change (Ascii.eqb "e" "e" || Ascii.eqb "e" "E") with true. cbv iota.
  destruct neg; cbn [Ascii.eqb Bool.eqb]; cbv iota beta;
    (destruct (Py.str_of_N n) eqn:S; [now apply str_of_N_nonempty in S|]);
    rewrite <- S, str_of_N_digits, N_of_str_of_N; reflexivity.
Qed.

Lemma is_digit_numchar (c : ascii) : Py.is_digit c = true -> Py.is_numchar c = true.
Proof. unfold Py.is_numchar. now intros ->. Qed.

Lemma number_of_exp_text (s : bool) (p : positive) (neg : bool) (j : N) :
  Py.number_of_string
    ((if s then "-" else "") ++ Py.str_of_N (Npos p) ++
     String "e" (String (if neg then "-" else "+")%char (Py.str_of_N j))) =
  Some (let ex := if neg then (- Z.of_N j)%Z else Z.of_N j in
        if (0 <=? ex)%Z then Py.nearest_sf s (Zpos p * 10 ^ ex) 1
        else Py.nearest_sf s (Zpos p) (Z.to_pos (10 ^ (- ex)))).
Proof.
  set (tail := String "e" (String (if neg then "-" else "+")%char (Py.str_of_N j))).
  assert (Htail : Py.all_chars Py.is_numchar tail = true).
  { unfold tail. cbn [Py.all_chars].
    rewrite (all_chars_weaken _ _ _ is_digit_numchar (str_of_N_digits j)).
    now destruct neg. }
  assert (Hbody : Py.all_chars Py.is_numchar (Py.str_of_N (Npos p) ++ tail) = true).
  { rewrite all_chars_app, Htail.
    now rewrite (all_chars_weaken _ _ _ is_digit_numchar (str_of_N_digits (Npos p))). }
  destruct (str_of_pos_head p) as (c & r & Hd & Hc & Hz).
  assert (Hminus : Ascii.eqb c "-" = false).
  { destruct (Ascii.eqb_spec c "-"%char) as [->|]; [discriminate | reflexivity]. }
  assert (Hzero : Ascii.eqb c "0" = false).
  { destruct (Ascii.eqb_spec c "0"%char); [contradiction | reflexivity]. }
  assert (Hspan : Py.span Py.is_digit (Py.str_of_N (Npos p) ++ tail) =
                  (Py.str_of_N (Npos p), tail)).
  { apply span_app; [apply str_of_N_digits | reflexivity]. }
  assert (Hint : Py.int_part_ok (Py.str_of_N (Npos p)) = true).
  { rewrite Hd. unfold Py.int_part_ok. now rewrite Hzero. }
  assert (Hexp := exponent_of_text neg j). fold tail in Hexp.
  assert (Hrest :
            (let '(ip, t2) := Py.span Py.is_digit (Py.str_of_N (Npos p) ++ tail) in
             if Py.int_part_ok ip then
               let '(fp, t3) :=
                 match t2 with
                 | "" => (None, t2)
                 | String c r =>
                     if Ascii.eqb c "." then
                       let '(f, r') := Py.span Py.is_digit r in (Some f, r')
                     else (None, t2)
                 end in
               match fp, t3 with
               | Some "", _ => None
               | None, "" => None
               | _, _ =>
                   let f := match fp with Some f => f | None => "" end in
                   match Py.exponent_of_string t3, Py.N_of_str (ip ++ f) with
                   | Some ex, Some n =>
                       let scale := (ex - Z.of_nat (String.length f))%Z in
                       Some (if (0 <=? scale)%Z
                             then Py.nearest_sf s (Z.of_N n * 10 ^ scale) 1
                             else Py.nearest_sf s (Z.of_N n) (Z.to_pos (10 ^ (- scale))))
                   | _, _ => None
                   end
               end
             else None) =
            Some (let ex := if neg then (- Z.of_N j)%Z else Z.of_N j in
                  if (0 <=? ex)%Z then Py.nearest_sf s (Zpos p * 10 ^ ex) 1
                  else Py.nearest_sf s (Zpos p) (Z.to_pos (10 ^ (- ex))))).
  { rewrite Hspan, Hint. unfold tail at 1 2. cbn [Ascii.eqb Bool.eqb]. cbv iota.
    fold tail. rewrite Hexp.
    replace (Py.str_of_N (Npos p) ++ "") with (Py.str_of_N (Npos p)).
    2:{ clear. induction (Py.str_of_N (N.pos p)); simpl; congruence. }
    rewrite N_of_str_of_N. cbn [String.length Z.of_nat]. cbv zeta.
    rewrite Z.sub_0_r. reflexivity. }
  unfold Py.number_of_string. destruct s.
  - cbn [append]. cbn [Py.all_chars]. rewrite Hbody.
    change (Py.is_numchar "-") with true. cbn [andb]. cbv iota.
    change (Ascii.eqb "-" "-") with true. cbv iota. exact Hrest.
  - cbn [append]. rewrite Hbody.
    rewrite Hd in *. cbn [append] in *. rewrite Hminus. exact Hrest.
Qed.

Lemma exact_text_reads (s : bool) (m : positive) (e : Z) :
  bounded prec emax m e = true ->
  Py.number_of_string (Py.exact_text s m e) = Some (S754_finite s m e).
Proof.
  intros B. unfold Py.exact_text.
  destruct (Z.leb_spec 0 e) as [L|L].
  - assert (P : exists p, (Zpos m * 2 ^ e)%Z = Zpos p).
    { pose proof (Z.pow_pos_nonneg 2 e ltac:(lia) L).
      destruct (Zpos m * 2 ^ e)%Z as [|p|p] eqn:E; try lia. now exists p. }
    destruct P as [p Hp]. rewrite Hp. change (Z.to_N (Zpos p)) with (Npos p).
    eapply eq_trans; [exact (number_of_exp_text s p false 0)|]. cbv zeta.
    change (Z.of_N 0) with 0%Z. change (0 <=? 0)%Z with true. cbv iota.
    change (10 ^ 0)%Z with 1%Z. rewrite Z.mul_1_r. f_equal.
    unfold Py.nearest_sf. apply SFdiv_exact; [exact B | | lia].
    intros _. lia.
  - assert (P : exists p, (Zpos m * 5 ^ (- e))%Z = Zpos p).
    { pose proof (Z.pow_pos_nonneg 5 (- e) ltac:(lia) ltac:(lia)).
      destruct (Zpos m * 5 ^ (- e))%Z as [|p|p] eqn:E; try lia. now exists p. }
    destruct P as [p Hp]. rewrite Hp. change (Z.to_N (Zpos p)) with (Npos p).
    eapply eq_trans; [exact (number_of_exp_text s p true (Z.to_N (- e)))|].
    cbv zeta.
    rewrite Z2N.id by lia. rewrite Z.opp_involutive.
    destruct (Z.leb_spec 0 e) as [L'|_]; [lia|]. f_equal.
    unfold Py.nearest_sf.
    assert (Q : exists q, (10 ^ (- e))%Z = Zpos q).
    { pose proof (Z.pow_pos_nonneg 10 (- e) ltac:(lia) ltac:(lia)).
      destruct (10 ^ (- e))%Z as [|q|q] eqn:E; try lia. now exists q. }
    destruct Q as [q Hq]. rewrite Hq. change (Z.to_pos (Zpos q)) with q.
    apply SFdiv_exact; [exact B | lia |].
    intros _. rewrite <- Hp, <- Hq.
    change 10%Z with (5 * 2)%Z. rewrite Z.pow_mul_l. ring.
Qed.

Lemma sf_eqb_eq (x y : spec_float) : Py.sf_eqb x y = true -> x = y.
Proof.
  destruct x as [a|a| |a m e], y as [b|b| |b n f]; simpl; try discriminate;
    try reflexivity.
  - intros H. apply Bool.eqb_prop in H. congruence.
  - intros H. apply Bool.eqb_prop in H. congruence.
  - intros H. apply andb_true_iff in H as [H H3].
    apply andb_true_iff in H as [H1 H2].
    apply Bool.eqb_prop in H1. apply Pos.eqb_eq in H2. apply Z.eqb_eq in H3.
    congruence.
Qed.

Lemma reads_as_spec (target : spec_float) (t : string) :
  Py.reads_as target t = true -> Py.number_of_string t = Some target.
Proof.
  unfold Py.reads_as. destruct (Py.number_of_string t); [|discriminate].
  intros H. now rewrite (sf_eqb_eq _ _ H).
Qed.

Lemma candidate_reads (s : bool) (target : spec_float) (num den p k : Z)
    (t : string) :
  Py.candidate s target num den p k = Some t -> Py.reads_as target t = true.
Proof.
  unfold Py.candidate. cbv zeta.
  destruct (Py.reads_as target (Py.decimal_text s _ p k)) eqn:Elo;
    destruct (Py.reads_as target (Py.decimal_text s (_ + 1) p k)) eqn:Ehi;
    try discriminate.
  - destruct (_ ?= _)%Z; [destruct (Z.even _)| |]; intros [= <-]; assumption.
  - intros [= <-]; assumption.
  - intros [= <-]; assumption.
Qed.

Lemma shortest_reads (fuel : nat) (s : bool) (target : spec_float)
    (num den p k : Z) (t : string) :
  Py.shortest fuel s target num den p k = Some t ->
  Py.reads_as target t = true.
Proof.
  revert k. induction fuel as [|fuel IH]; intros k; simpl; [discriminate|].
  destruct (Py.candidate s target num den p k) eqn:C.
  - intros [= <-]. eapply candidate_reads; eassumption.
  - apply IH.
Qed.

Lemma repr_finite_reads (s : bool) (m : positive) (e : Z) :
  bounded prec emax m e = true ->
  Py.number_of_string (Py.repr_finite s m e) = Some (S754_finite s m e).
Proof.
  intros B. unfold Py.repr_finite.
  destruct (Py.shortest _ _ _ _ _ _ _) eqn:S.
  - apply reads_as_spec. eapply shortest_reads; eassumption.
  - now apply exact_text_reads.
Qed.

Lemma number_numchars (t : string) (x : spec_float) :
  Py.number_of_string t = Some x -> Py.all_chars Py.is_numchar t = true.
Proof.
  unfold Py.number_of_string.
  destruct (Py.all_chars Py.is_numchar t); [reflexivity | discriminate].
Qed.

Lemma scan_number_text (t rest : string) (x : float) :
  Py.number_of_string t = Some (Prim2SF x) ->
  head_fails Py.is_numchar rest ->
  Py.scan_float (t ++ rest) = Some (x, rest).
Proof.
  intros N H. unfold Py.scan_float.
  rewrite (span_app _ _ _ (number_numchars _ _ N) H), N.
  now rewrite SF2Prim_Prim2SF.
Qed.

Lemma scan_float_floatstr (x : float) (rest : string) :
  head_fails Py.is_numchar rest ->
  Py.scan_float (Py.floatstr x ++ rest) = Some (x, rest).
Proof.
  intros H. unfold Py.floatstr, Py.float_repr.
  pose proof (SF2Prim_Prim2SF x) as R.
  pose proof (Prim2SF_valid x) as V.
  destruct (Prim2SF x) as [s|s| |s m e] eqn:E.
  - apply scan_number_text; [|exact H]. rewrite E. now destruct s.
  - destruct s; simpl in R; rewrite <- R; reflexivity.
  - simpl in R. rewrite <- R. reflexivity.
  - apply scan_number_text; [|exact H]. rewrite E.
    now apply repr_finite_reads.
Qed.

(** ** The JSON export *)

Lemma scan_escape_char (c : ascii) (x : string) :
  Py.scanstring (Py.escape_char c ++ x) = Py.cons_char c (Py.scanstring x).
Proof.
  destruct c as [[] [] [] [] [] [] [] []]; reflexivity.
Qed.

Lemma scanstring_escape (s rest : string) :
  Py.scanstring (Py.escape s ++ String Py.dquote rest) = Some (s, rest).
Proof.
  induction s as [|c s IH]; simpl.
  - reflexivity.
  - rewrite append_assoc, scan_escape_char, IH. reflexivity.
Qed.

Lemma scan_encode_string (s rest : string) :
  exists body, Py.encode_string s ++ rest = String Py.dquote body /\
               Py.scanstring body = Some (s, rest).
Proof.
  unfold Py.encode_string. eexists. split; [reflexivity|].
  rewrite append_assoc. apply scanstring_escape.
Qed.

Lemma skip_ws_id (s : string) : head_fails Py.is_ws s -> Py.skip_ws s = s.
Proof. destruct s as [|c r]; simpl; [reflexivity | now intros ->]. Qed.

Lemma skip_ws_spaces (n : nat) (s : string) :
  head_fails Py.is_ws s -> Py.skip_ws (Py.spaces n ++ s) = s.
Proof.
  intros H. induction n as [|n IH]; simpl; [now apply skip_ws_id | exact IH].
Qed.

Lemma skip_ws_newline_indent (level : nat) (s : string) :
  head_fails Py.is_ws s -> Py.skip_ws (Py.newline_indent level ++ s) = s.
Proof. intros H. unfold Py.newline_indent. simpl. now apply skip_ws_spaces. Qed.

Lemma numchar_not_special (c : ascii) :
  Py.is_numchar c = true ->
  Py.is_ws c = false /\ Ascii.eqb c Py.dquote = false /\ Ascii.eqb c "{" = false.
Proof.
  destruct c as [[] [] [] [] [] [] [] []]; simpl; intros H;
    try discriminate; repeat split.
Qed.

Lemma number_head (t : string) (x : spec_float) :
  Py.number_of_string t = Some x ->
  exists c r, t = String c r /\ Py.is_numchar c = true.
Proof.
  intros H. pose proof (number_numchars _ _ H) as A.
  destruct t as [|c r]; [discriminate|].
  simpl in A. apply andb_true_iff in A as [A _]. now exists c, r.
Qed.

(** The first character of a float's text starts neither a string nor an
    object, and is not white space. *)
Lemma floatstr_head (x : float) :
  exists c r, Py.floatstr x = String c r /\
              Py.is_ws c = false /\ Ascii.eqb c Py.dquote = false /\
              Ascii.eqb c "{" = false.
Proof.
  unfold Py.floatstr, Py.float_repr.
  pose proof (Prim2SF_valid x) as V.
  destruct (Prim2SF x) as [s|s| |s m e].
  - destruct s; do 2 eexists; repeat split.
  - destruct s; do 2 eexists; repeat split.
  - do 2 eexists; repeat split.
  - destruct (number_head _ _ (repr_finite_reads s m e V)) as (c & r & E & N).
    exists c, r. split; [exact E|]. now apply numchar_not_special.
Qed.

Lemma dumps_head (level : nat) (o : Py.pyobj) :
  exists c r, Py.dumps level o = String c r /\ Py.is_ws c = false.
Proof.
  destruct o as [[s|x]|items]; simpl.
  - do 2 eexists. split; reflexivity.
  - destruct (floatstr_head x) as (c & r & E & W & _). now exists c, r.
  - destruct items; do 2 eexists; split; reflexivity.
Qed.

Lemma skip_ws_dumps (level : nat) (o : Py.pyobj) (rest : string) :
  Py.skip_ws (Py.dumps level o ++ rest) = Py.dumps level o ++ rest.
Proof.
  destruct (dumps_head level o) as (c & r & E & W). rewrite E. simpl.
  now rewrite W.
Qed.

Lemma scan_value_scalar (fuel : nat) (v : Py.scalar) (rest : string) :
  head_fails Py.is_numchar rest ->
  Py.scan_value (S fuel) (Py.encode_scalar v ++ rest) = Some (Py.PVal v, rest).
Proof.
  intros H. destruct v as [s|x].
  - destruct (scan_encode_string s rest) as (body & E & S).
    simpl Py.encode_scalar. rewrite E. simpl.
    now rewrite S.
  - pose proof (scan_float_floatstr x rest H) as F.
    destruct (floatstr_head x) as (c & r & E & _ & Q & B).
    simpl Py.encode_scalar. rewrite E in *. simpl append in *.
    simpl Py.scan_value. rewrite Q, B, F. reflexivity.
Qed.

Lemma dumps_dict (level : nat) (kv : string * Py.pyobj) items :
  Py.dumps level (Py.PDict (kv :: items)) =
  "{" ++ Py.newline_indent (S level) ++
  String.concat ("," ++ Py.newline_indent (S level))
    (map (member_text level) (kv :: items)) ++
  Py.newline_indent level ++ "}".
Proof. reflexivity. Qed.

Lemma scan_members_step (fuel : nat) (k : string) (v : Py.pyobj)
    (after : string) (acc : list (string * Py.pyobj)) (level : nat) :
  Py.scan_value fuel (Py.dumps (S level) v ++ after) = Some (v, after) ->
  Py.scan_members (S fuel) (member_text level (k, v) ++ after) acc =
  match Py.skip_ws after with
  | String "," r4 => Py.scan_members fuel (Py.skip_ws r4) (Py.set k v acc)
  | String "}" r4 => Some (Py.PDict (Py.set k v acc), r4)
  | _ => None
  end.
Proof.
  intros V. unfold member_text. cbn [fst snd].
  rewrite !append_assoc.
  destruct (scan_encode_string k (": " ++ Py.dumps (S level) v ++ after))
    as (body & E & S).
  rewrite E. cbn [Py.scan_members].
  change (Ascii.eqb Py.dquote Py.dquote) with true. cbv iota.
  rewrite S. cbn [append Py.skip_ws Py.is_ws Ascii.eqb Bool.eqb orb].
  rewrite skip_ws_dumps, V. reflexivity.
Qed.

Lemma member_head (level : nat) (kv : string * Py.pyobj) (rest : string) :
  head_fails Py.is_ws (member_text level kv ++ rest).
Proof. unfold member_text, Py.encode_string. simpl. reflexivity. Qed.

Lemma concat_cons_split (sep x : string) (l : list string) (rest : string) :
  exists tail, String.concat sep (x :: l) ++ rest = x ++ tail.
Proof.
  destruct l as [|y l]; simpl.
  - now exists rest.
  - eexists. rewrite append_assoc. reflexivity.
Qed.

Lemma concat_members_head (level : nat) sep kv items (rest : string) :
  head_fails Py.is_ws (String.concat sep (map (member_text level) (kv :: items)) ++ rest).
Proof.
  cbn [map].
  destruct (concat_cons_split sep (member_text level kv) (map (member_text level) items) rest)
    as [tail ->].
  apply member_head.
Qed.

Lemma scan_members_dumps (level : nat) (items : list (string * Py.pyobj)) :
  Forall (fun kv => reads_back (snd kv)) items ->
  items <> [] ->
  forall acc fuel rest,
    NoDup (Py.keys (acc ++ items)%list) ->
    Forall (fun kv => wf_obj (snd kv)) items ->
    (members_size items <= fuel)%nat ->
    Py.scan_members fuel
      (String.concat ("," ++ Py.newline_indent (S level))
         (map (member_text level) items) ++
       Py.newline_indent level ++ "}" ++ rest) acc =
    Some (Py.PDict (acc ++ items)%list, rest).
Proof.
  induction items as [|[k v] items IH]; [congruence|].
  intros HR _ acc fuel rest ND WF Hfuel.
  inversion HR as [|? ? Rv Ritems]; subst.
  inversion WF as [|? ? Wv Witems]; subst.
  unfold members_size in Hfuel. cbn [map snd] in Hfuel.
  change (list_sum (?a :: ?l)) with (a + list_sum l)%nat in Hfuel.
  destruct fuel as [|fuel]; [lia|].
  assert (Fresh : Py.get k acc = None).
  { apply get_none_not_in. unfold Py.keys in *. rewrite map_app in ND.
    apply NoDup_remove_2 in ND. intros I. apply ND.
    apply in_or_app. now left. }
  assert (Acc : (Py.set k v acc ++ items = acc ++ (k, v) :: items)%list).
  { rewrite (set_fresh _ _ _ Fresh), <- List.app_assoc. reflexivity. }
  destruct items as [|kv' items'].
  - cbn [map String.concat].
    rewrite (scan_members_step fuel k v).
    + rewrite skip_ws_newline_indent by reflexivity. cbn [append].
      rewrite <- Acc, List.app_nil_r. reflexivity.
    + apply Rv; [exact Wv | cbn [snd]; simpl in Hfuel; lia | reflexivity].
  - change (String.concat ?sep (map (member_text level) ((k, v) :: kv' :: items')))
      with (member_text level (k, v) ++ sep ++
            String.concat sep (map (member_text level) (kv' :: items'))).
    rewrite !append_assoc.
    rewrite (scan_members_step fuel k v).
    + cbn [append Py.skip_ws Py.is_ws Ascii.eqb Bool.eqb orb].
      rewrite skip_ws_newline_indent by apply concat_members_head.
      rewrite <- Acc.
      apply IH; [exact Ritems | discriminate | | exact Witems |].
      * now rewrite Acc.
      * unfold members_size. lia.
    + apply Rv; [exact Wv | cbn [snd]; lia | reflexivity].
Qed.

Lemma scan_value_open (fuel level : nat) (body : string) :
  Py.scan_value (S fuel)
    ("{" ++ Py.newline_indent level ++ String Py.dquote body) =
  Py.scan_members fuel (String Py.dquote body) [].
Proof.
  cbn [append Py.scan_value].
  change (Ascii.eqb "{" Py.dquote) with false.
  change (Ascii.eqb "{" "{") with true. cbv iota.
  rewrite skip_ws_newline_indent by reflexivity. reflexivity.
Qed.

Lemma scan_value_dumps (o : Py.pyobj) : reads_back o.
Proof.
  induction o as [v|items IH] using pyobj_induction;
    intros W level fuel rest Hfuel Hrest.
  - destruct fuel as [|fuel]; [simpl in Hfuel; lia|].
    now apply scan_value_scalar.
  - inversion W as [|? ND WF]; subst.
    destruct fuel as [|fuel]; [simpl in Hfuel; lia|].
    destruct items as [|kv items].
    + reflexivity.
    + pose proof (scan_members_dumps level (kv :: items) IH ltac:(discriminate)
                    [] fuel rest ND WF) as M.
      simpl in Hfuel. specialize (M ltac:(unfold members_size; simpl; lia)).
      assert (E : exists body,
                 String.concat ("," ++ Py.newline_indent (S level))
                   (map (member_text level) (kv :: items)) ++
                 Py.newline_indent level ++ "}" ++ rest =
                 String Py.dquote body).
      { cbn [map].
        destruct (concat_cons_split ("," ++ Py.newline_indent (S level))
                    (member_text level kv) (map (member_text level) items)
                    (Py.newline_indent level ++ "}" ++ rest)) as [tail T].
        rewrite T. unfold member_text, Py.encode_string. cbn [append].
        eexists. reflexivity. }
      destruct E as [body E].
      rewrite dumps_dict, !append_assoc, E, scan_value_open, <- E.
      exact M.
Qed.

Lemma length_concat_ge (sep : string) (l : list string) :
  (list_sum (map String.length l) <= String.length (String.concat sep l))%nat.
Proof.
  induction l as [|x l IH]; [simpl; lia|].
  change (list_sum (map String.length (x :: l))) with
    (String.length x + list_sum (map String.length l))%nat.
  destruct l as [|y l].
  - simpl. lia.
  - change (String.concat sep (x :: y :: l)) with
      (x ++ sep ++ String.concat sep (y :: l)).
    rewrite !length_append. lia.
Qed.

Lemma members_size_le (level : nat) (items : list (string * Py.pyobj)) :
  Forall (fun kv => forall level,
            (obj_size (snd kv) <= String.length (Py.dumps level (snd kv)))%nat)
         items ->
  (members_size items <=
   list_sum (map String.length (map (member_text level) items)))%nat.
Proof.
  unfold members_size. induction 1 as [|kv l H _ IH]; [simpl; lia|].
  cbn [map].
  change (list_sum (?a :: ?l')) with (a + list_sum l')%nat.
  specialize (H (S level)).
  unfold member_text at 1. unfold Py.encode_string.
  rewrite !length_append. simpl String.length. lia.
Qed.

Lemma size_le_length (o : Py.pyobj) :
  forall level, (obj_size o <= String.length (Py.dumps level o))%nat.
Proof.
  induction o as [v|items IH] using pyobj_induction; intros level.
  - destruct (dumps_head level (Py.PVal v)) as (c & r & E & _).
    rewrite E. simpl. lia.
  - destruct items as [|kv items]; [simpl; lia|].
    rewrite dumps_dict, !length_append.
    pose proof (length_concat_ge ("," ++ Py.newline_indent (S level))
                  (map (member_text level) (kv :: items))) as G.
    pose proof (members_size_le level (kv :: items) IH) as M.
    change (obj_size (Py.PDict (kv :: items))) with (S (members_size (kv :: items))).
    change (String.length "{") with 1%nat. lia.
Qed.

Lemma json_loads_dumps (o : Py.pyobj) :
  wf_obj o -> Py.json_loads (Py.json_dumps o) = Some o.
Proof.
  intros W. unfold Py.json_loads, Py.json_dumps.
  pose proof (skip_ws_dumps 0 o "") as S. rewrite append_nil_r in S.
  rewrite S.
  pose proof (scan_value_dumps o W 0 (String.length (Py.dumps 0 o)) ""
                (size_le_length o 0) I) as R.
  rewrite append_nil_r in R. rewrite R. reflexivity.
Qed.

Lemma cells_object_wf (st : session_state) :
  NoDup (Py.keys (cells_data st)) -> wf_obj (cells_object st).
Proof.
  intros ND. unfold cells_object. constructor.
  - unfold Py.keys in *. rewrite map_map. exact ND.
  - apply Forall_forall. intros kv I. apply in_map_iff in I as (kc & <- & _).
    cbn [snd]. constructor.
    + unfold Py.keys. rewrite map_map. simpl.
      repeat constructor; simpl; intuition discriminate.
    + apply Forall_forall. intros kv I. apply in_map_iff in I as (x & <- & _).
      constructor.
Qed.

Lemma step_nodup_keys (st : session_state) (c : command) :
  NoDup (Py.keys (cells_data st)) ->
  NoDup (Py.keys (cells_data (step st c))).
Proof.
  intros H. destruct c as [draw now ty|id|id cur|]; simpl.
  - unfold add_cell. destruct (8 <=? Py.len (cells_data st))%nat; simpl;
      [exact H | now apply nodup_keys_set].
  - unfold remove_cell. destruct (Py.mem id (cells_data st)); simpl;
      [now apply nodup_keys_del | exact H].
  - unfold update_cell_current. destruct (Py.get id (cells_data st)); simpl;
      [now rewrite !keys_modify | exact H].
  - constructor.
Qed.

Lemma run_nodup_keys (cs : list command) (st : session_state) :
  NoDup (Py.keys (cells_data st)) ->
  NoDup (Py.keys (cells_data (run cs st))).
Proof.
  revert st. induction cs as [|c cs IH]; intros st H; simpl; [exact H|].
  apply IH. now apply step_nodup_keys.
Qed.

Lemma export_json_reads_back (st : session_state) :
  NoDup (Py.keys (cells_data st)) ->
  Py.json_loads (Py.json_dumps (cells_object st)) = Some (cells_object st).
Proof. intros ND. now apply json_loads_dumps, cells_object_wf. Qed.

(** C9. For every snapshot (a dict, so its ids are distinct), decoding the
    JSON export gives back the mapping it was made from, every cell under its
    id with each of its seven fields, and encoding that again gives the same
    text: encode, decode, encode is a fixed point. *)
Theorem json_export_round_trips (st : session_state) :
  NoDup (Py.keys (cells_data st)) ->
  exists text,
    export_data "json" st = Some text /\
    Py.json_loads text = Some (cells_object st) /\
    option_map Py.json_dumps (Py.json_loads text) = Some text.
Proof.
  intros ND. eexists. split; [reflexivity|].
  rewrite (export_json_reads_back _ ND). split; reflexivity.
Qed.

Lemma json_export_round_trips_witness :
  NoDup (Py.keys (cells_data (run sample_session init))) /\
  exists text,
    export_data "json" (run sample_session init) = Some text /\
    Py.json_loads text = Some (cells_object (run sample_session init)) /\
    option_map Py.json_dumps (Py.json_loads text) = Some text.
Proof.
  assert (ND : NoDup (Py.keys (cells_data (run sample_session init)))).
  { vm_compute. repeat constructor; simpl; intuition discriminate. }
  split; [exact ND|].
  exact (json_export_round_trips (run sample_session init) ND).
Defined.

(** The snapshots that the program can hold are such dicts: whatever
    commands have been run, the export reads back. *)
Corollary json_export_round_trips_in_every_session (cs : list command) :
  Py.json_loads (Py.json_dumps (cells_object (run cs init))) =
  Some (cells_object (run cs init)).
Proof. apply export_json_reads_back, run_nodup_keys. constructor. Qed.

(** ** The scenarios of the specification, evaluated *)

(** One LFP cell at 1.5 A has capacity 4.8 and is active; once it is removed
    the registry is empty and [main] is back at the quick-start view. *)
Example lfp_scenario :
  let st := run [UpdateCurrent "cell_1_lfp" 1.5] one_lfp in
  Py.get "cell_1_lfp" (cells_data st) =
    Some (mkCell "lfp" 3.2 1.5 31.4 4.8 "Active" "2024-01-01 10:00:00") /\
  cells_data (run [RemoveCell "cell_1_lfp"] st) = [] /\
  main_content (run [RemoveCell "cell_1_lfp"] st) = QuickStart.
Proof. vm_compute. repeat split; reflexivity. Qed.

(** Two Li-ion cells at 0 A and 2.5 A: two cells, one of them active, total
    capacity 9.0. *)
Example aggregates_scenario :
  main_content
    (run [AddCell 30.0 "2024-01-01 10:00:00" "li-ion";
          AddCell 32.0 "2024-01-01 10:00:01" "li-ion";
          UpdateCurrent "cell_1_li-ion" 0.0;
          UpdateCurrent "cell_2_li-ion" 2.5] init) =
  Dashboard (Some (mkMetrics 2 1 9.0 31.0 2.5)).
Proof. vm_compute. reflexivity. Qed.

(** [repr] on values the program produces, and on some it does not. *)
Example float_repr_samples :
  map Py.float_repr
    [3.2; 3.2 * 1.5; 4.8; 9.0; 31.4; 0.0; -0.0; 0.1 + 0.2; 1e16; 1e-5;
     123456789.125; 5e-324]%float =
  ["3.2"; "4.800000000000001"; "4.8"; "9.0"; "31.4"; "0.0"; "-0.0";
   "0.30000000000000004"; "1e+16"; "1e-05"; "123456789.125"; "5e-324"].
Proof. vm_compute. reflexivity. Qed.

(** [round] ties to even on the exact binary value. *)
Example round_samples :
  map (fun x => Py.round x 2) [3.2 * 1.5; 2.675; 0.125; 0.375; -0.001]%float =
  [4.8; 2.67; 0.12; 0.38; -0.0]%float.
Proof. vm_compute. reflexivity. Qed.

(** * Further properties of the program *)

(** ** Reruns *)

(** Streamlit runs [main], and with it [__init__], again after every event:
    a session that a run has left behind is taken over as it is, and a fresh
    one starts empty with the counter at 0. *)
Lemma init_keeps_the_session (st : session_state) :
  __init__ (left_behind st) = st /\ __init__ (mkKeys None None) = init.
Proof. destruct st. split; reflexivity. Qed.

(** ** What every reachable state satisfies *)

Section ForallItems.
Context {V : Type} (P : string * V -> Prop).
Implicit Types (d : Py.dict V) (k : string) (v : V).

Lemma Forall_set d k v : Forall P d -> P (k, v) -> Forall P (Py.set k v d).
Proof.
  intros Hd Hv. induction Hd as [|[k' v'] d H Hd IH]; simpl.
  - now constructor.
  - destruct (String.eqb k k'); constructor; assumption.
Qed.

Lemma Forall_del d k : Forall P d -> Forall P (Py.del k d).
Proof.
  intros Hd. induction Hd as [|[k' v'] d H Hd IH]; simpl; [constructor|].
  destruct (String.eqb k k'); [assumption | now constructor].
Qed.

Lemma Forall_modify d k f :
  Forall P d -> (forall k' v, P (k', v) -> P (k', f v)) ->
  Forall P (Py.modify k f d).
Proof.
  intros Hd Hf. induction Hd as [|[k' v'] d H Hd IH]; simpl; [constructor|].
  destruct (String.eqb k k'); constructor; auto.
Qed.

Lemma get_in d k v : Py.get k d = Some v -> In (k, v) d.
Proof.
  induction d as [|[k' v'] d IH]; simpl; [discriminate|].
  destruct (String.eqb_spec k k') as [->|_].
  - intros [= ->]. now left.
  - intros H. right. now apply IH.
Qed.

Lemma in_get d k v : NoDup (Py.keys d) -> In (k, v) d -> Py.get k d = Some v.
Proof.
  induction d as [|[k' v'] d IH]; simpl; [tauto|].
  intros ND [E|I].
  - injection E as -> ->. now rewrite String.eqb_refl.
  - inversion ND as [|? ? Hn Hd]; subst.
    destruct (String.eqb_spec k k') as [->|_].
    + exfalso. apply Hn. unfold Py.keys.
      change k' with (fst (k', v)). now apply in_map.
    + now apply IH.
Qed.
End ForallItems.

Lemma cell_ok_weaken (n n' : nat) (kc : string * cell) :
  (n <= n')%nat -> cell_ok n kc -> cell_ok n' kc.
Proof.
  intros L ((m & Hm & E) & R). split; [|exact R].
  exists m. split; [lia | exact E].
Qed.

Lemma next_id_is_fresh (counter : nat) (d : Py.dict cell) (ty : string) :
  Forall (cell_ok counter) d ->
  Py.get (make_cell_id (counter + 1) ty) d = None.
Proof.
  intros F. apply get_none_not_in. intros I.
  unfold Py.keys in I. apply in_map_iff in I as ([k c] & E & I).
  rewrite Forall_forall in F. destruct (F _ I) as ((n & Hn & En) & _).
  simpl in E, En. rewrite En in E. apply make_cell_id_inj in E. lia.
Qed.

Lemma new_cell_ok (counter : nat) (draw : float) (now ty : string) :
  cell_ok (counter + 1)
    (make_cell_id (counter + 1) ty,
     mkCell ty (Py.get_default ty 3.6%float voltage_map) 0.0%float
       (Py.round draw 1) 0.0%float "Ready" now).
Proof.
  split; [exists (counter + 1)%nat; split; [lia | reflexivity]|].
  cbn [snd type voltage current capacity status].
  split; [reflexivity|]. split; [|left; split; reflexivity].
  unfold Py.get_default, voltage_map. simpl Py.get.
  repeat match goal with
         | |- context [String.eqb ty ?x] => destruct (String.eqb ty x)
         end; vm_compute; reflexivity.
Qed.

Lemma updated_cell_ok (counter : nat) (cur : float) (k : string) (c : cell) :
  cell_ok counter (k, c) -> cell_ok counter (k, updated cur c).
Proof.
  intros (I & V & _ & _). unfold cell_ok, updated. cbn [fst snd type voltage
    current capacity status] in *.
  split; [exact I|]. split; [exact V|]. split; [reflexivity|].
  destruct (0 <? cur)%float; [right; left | right; right]; split; reflexivity.
Qed.

Lemma step_registry_ok (st : session_state) (c : command) :
  registry_ok st -> registry_ok (step st c).
Proof.
  intros [ND F]. destruct c as [draw now ty|id|id cur|]; simpl.
  - unfold add_cell. destruct (8 <=? Py.len (cells_data st))%nat; simpl;
      [now split|].
    split; [now apply nodup_keys_set|].
    apply Forall_set; [|apply new_cell_ok].
    apply Forall_impl with (P := cell_ok (cell_counter st)); [|exact F].
    intros kc. apply cell_ok_weaken. cbn [cell_counter]. lia.
  - unfold remove_cell. destruct (Py.mem id (cells_data st)); simpl;
      [|now split].
    split; [now apply nodup_keys_del | now apply Forall_del].
  - destruct (Py.get id (cells_data st)) as [c|] eqn:G.
    + rewrite (update_cell_current_present _ _ _ _ G).
      unfold registry_ok. cbn [snd cells_data cell_counter].
      split; [now rewrite keys_modify|].
      apply Forall_modify; [exact F|]. intros k' v. apply updated_cell_ok.
    + unfold update_cell_current. rewrite G. now split.
  - split; constructor.
Qed.

Lemma run_registry_ok (cs : list command) (st : session_state) :
  registry_ok st -> registry_ok (run cs st).
Proof.
  revert st. induction cs as [|c cs IH]; intros st H; simpl; [exact H|].
  apply IH. now apply step_registry_ok.
Qed.

Lemma init_registry_ok : registry_ok init.
Proof. split; constructor. Qed.

(** ** Ids, derived fields and the order of the registry *)

Section DictRemoval.
Context {V : Type}.
Implicit Types (d : Py.dict V) (k : string) (v : V).

Lemma get_del_same d k : NoDup (Py.keys d) -> Py.get k (Py.del k d) = None.
Proof.
  induction d as [|[k' v'] d IH]; simpl; [reflexivity|].
  intros ND. inversion ND as [|? ? Hn Hd]; subst.
  destruct (String.eqb_spec k k') as [->|Hk]; simpl.
  - now apply get_none_not_in.
  - destruct (String.eqb_spec k k'); [contradiction | now apply IH].
Qed.

Lemma get_del_other d k k' : k <> k' -> Py.get k' (Py.del k d) = Py.get k' d.
Proof.
  intros Hne. induction d as [|[k0 v0] d IH]; simpl; [reflexivity|].
  destruct (String.eqb_spec k k0) as [->|Hk]; simpl.
  - destruct (String.eqb_spec k' k0); [congruence | reflexivity].
  - destruct (String.eqb k' k0); [reflexivity | exact IH].
Qed.

Lemma len_del_present d k v :
  Py.get k d = Some v -> S (Py.len (Py.del k d)) = Py.len d.
Proof.
  unfold Py.len. induction d as [|[k' v'] d IH]; simpl; [discriminate|].
  destruct (String.eqb k k'); simpl; [reflexivity|].
  intros H. now rewrite IH.
Qed.

Lemma keys_del d k :
  NoDup (Py.keys d) ->
  Py.keys (Py.del k d) = filter (fun k' => negb (String.eqb k k')) (Py.keys d).
Proof.
  unfold Py.keys. induction d as [|[k' v'] d IH]; simpl; [reflexivity|].
  intros ND. inversion ND as [|? ? Hn Hd]; subst.
  destruct (String.eqb_spec k k') as [->|Hk]; simpl.
  - symmetry. apply forallb_filter_id. apply forallb_forall.
    intros x Hx. destruct (String.eqb_spec k' x) as [->|]; [contradiction|reflexivity].
  - now rewrite IH.
Qed.

Lemma modify_app_fresh (pre rest : Py.dict V) k f :
  Py.get k pre = None ->
  Py.modify k f (pre ++ rest)%list = (pre ++ Py.modify k f rest)%list.
Proof.
  induction pre as [|[k' v'] pre IH]; simpl; [reflexivity|].
  destruct (String.eqb k k'); [discriminate|].
  intros H. now rewrite IH.
Qed.

Lemma get_app_fresh (pre rest : Py.dict V) k :
  Py.get k pre = None -> Py.get k (pre ++ rest)%list = Py.get k rest.
Proof.
  induction pre as [|[k' v'] pre IH]; simpl; [reflexivity|].
  destruct (String.eqb k k'); [discriminate | exact IH].
Qed.
End DictRemoval.

Lemma step_len_le_counter (st : session_state) (c : command) :
  (Py.len (cells_data st) <= cell_counter st)%nat ->
  (Py.len (cells_data (step st c)) <= cell_counter (step st c))%nat.
Proof.
  intros H. destruct c as [draw now ty|id|id cur|]; simpl.
  - unfold add_cell. destruct (8 <=? Py.len (cells_data st))%nat; simpl;
      [exact H|].
    pose proof (len_set_le (cells_data st)
                  (make_cell_id (cell_counter st + 1) ty)
                  (mkCell ty (Py.get_default ty 3.6%float voltage_map) 0
                     (Py.round draw 1) 0 "Ready" now)).
    lia.
  - unfold remove_cell. destruct (Py.mem id (cells_data st)); simpl;
      [|exact H].
    pose proof (len_del_le (cells_data st) id). lia.
  - unfold update_cell_current.
    destruct (Py.get id (cells_data st)); simpl; [|exact H].
    now rewrite !len_modify.
  - unfold Py.len. simpl. lia.
Qed.

Lemma run_len_le_counter (cs : list command) (st : session_state) :
  (Py.len (cells_data st) <= cell_counter st)%nat ->
  (Py.len (cells_data (run cs st)) <= cell_counter (run cs st))%nat.
Proof.
  revert st. induction cs as [|c cs IH]; intros st H; simpl; [exact H|].
  apply IH. now apply step_len_le_counter.
Qed.

(** X1. Whatever commands have been run, the ids in the registry are
    pairwise different, each id is "cell_", a number between 1 and the
    counter, "_" and the type stored in its cell, and there are no more cells
    than the counter says. *)
Theorem ids_are_distinct_and_numbered (cs : list command) :
  NoDup (Py.keys (cells_data (run cs init))) /\
  Forall (fun kc =>
            exists n, (1 <= n <= cell_counter (run cs init))%nat /\
                      fst kc = make_cell_id n (type (snd kc)))
         (cells_data (run cs init)) /\
  (Py.len (cells_data (run cs init)) <= cell_counter (run cs init))%nat.
Proof.
  destruct (run_registry_ok cs init init_registry_ok) as [ND F].
  split; [exact ND|]. split.
  - eapply Forall_impl; [|exact F]. intros kc H. exact (proj1 H).
  - apply run_len_le_counter. unfold Py.len. simpl. lia.
Qed.

(** X2. Whatever commands have been run, every stored cell has the voltage
    that the table gives for its type (3.6 when the type is not in it), its
    capacity is [round(voltage * current, 2)] of its own voltage and current,
    and its status is "Ready" with current 0, "Active" with a current above
    zero, or "Standby" with a current that is not above zero. *)
Theorem derived_fields_are_consistent (cs : list command) :
  Forall (fun kc =>
            voltage (snd kc) =
              Py.get_default (type (snd kc)) 3.6%float voltage_map /\
            capacity (snd kc) =
              Py.round (voltage (snd kc) * current (snd kc))%float 2 /\
            (status (snd kc) = "Ready" /\ current (snd kc) = 0%float \/
             status (snd kc) = "Active" /\
               (0 <? current (snd kc))%float = true \/
             status (snd kc) = "Standby" /\
               (0 <? current (snd kc))%float = false))
         (cells_data (run cs init)).
Proof.
  destruct (run_registry_ok cs init init_registry_ok) as [_ F].
  eapply Forall_impl; [|exact F]. intros kc H. exact (proj2 H).
Qed.

(** X3. In a state that the program has reached and that holds fewer than 8
    cells, [add_cell] puts the new cell behind all the others: no existing
    entry is overwritten or moved, and the registry grows by exactly one. *)
Theorem add_cell_appends_one_cell
    (cs : list command) (draw : float) (now ty : string) :
  (Py.len (cells_data (run cs init)) < 8)%nat ->
  cells_data (snd (add_cell draw now ty (run cs init))) =
  (cells_data (run cs init) ++
   [(make_cell_id (cell_counter (run cs init) + 1) ty,
     mkCell ty (Py.get_default ty 3.6%float voltage_map) 0.0%float
       (Py.round draw 1) 0.0%float "Ready" now)])%list /\
  Py.len (cells_data (snd (add_cell draw now ty (run cs init)))) =
  S (Py.len (cells_data (run cs init))).
Proof.
  intros H. rewrite (add_cell_room _ _ _ _ H). cbn [snd cells_data].
  destruct (run_registry_ok cs init init_registry_ok) as [_ F].
  rewrite (set_fresh _ _ _ (next_id_is_fresh _ _ ty F)).
  split; [reflexivity|]. unfold Py.len. rewrite length_app. simpl. lia.
Qed.

Lemma add_cell_appends_one_cell_witness :
  (Py.len (cells_data (run sample_session init)) < 8)%nat /\
  Py.keys (cells_data (snd (add_cell 30.0 "2024-01-01 10:00:09" "nicad"
                              (run sample_session init)))) =
  ["cell_1_lfp"; "cell_2_li-ion"; "cell_3_nimh"; "cell_4_nicad"].
Proof.
  assert (L : (Py.len (cells_data (run sample_session init)) < 8)%nat)
    by (vm_compute; lia).
  split; [exact L|].
  destruct (add_cell_appends_one_cell sample_session 30.0
              "2024-01-01 10:00:09" "nicad" L) as [E _].
  rewrite E. vm_compute. reflexivity.
Defined.

(** ** What one call leaves alone *)

(** X4. Removing a cell that is in a registry the program has reached
    succeeds, takes out that cell and no other, keeps the others in their
    order, and leaves the counter alone. *)
Theorem remove_cell_removes_only_that_cell
    (cs : list command) (cell_id : string) (c : cell) :
  Py.get cell_id (cells_data (run cs init)) = Some c ->
  fst (remove_cell cell_id (run cs init)) =
    (true, "Removed cell: " ++ cell_id) /\
  Py.get cell_id (cells_data (snd (remove_cell cell_id (run cs init)))) = None /\
  (forall k, k <> cell_id ->
     Py.get k (cells_data (snd (remove_cell cell_id (run cs init)))) =
     Py.get k (cells_data (run cs init))) /\
  Py.keys (cells_data (snd (remove_cell cell_id (run cs init)))) =
    filter (fun k => negb (String.eqb cell_id k))
           (Py.keys (cells_data (run cs init))) /\
  S (Py.len (cells_data (snd (remove_cell cell_id (run cs init))))) =
    Py.len (cells_data (run cs init)) /\
  cell_counter (snd (remove_cell cell_id (run cs init))) =
    cell_counter (run cs init).
Proof.
  intros G.
  destruct (run_registry_ok cs init init_registry_ok) as [ND _].
  unfold remove_cell, Py.mem. rewrite G. cbn [fst snd cells_data cell_counter].
  split; [reflexivity|]. split; [now apply get_del_same|].
  split; [intros k Hk; apply get_del_other; congruence|].
  split; [now apply keys_del|].
  split; [now apply len_del_present with (v := c) | reflexivity].
Qed.

Lemma remove_cell_removes_only_that_cell_witness :
  Py.get "cell_2_li-ion" (cells_data (run sample_session init)) =
    Some (mkCell "li-ion" 3.6 0.0 25.1 0.0 "Standby" "2024-01-01 10:00:01") /\
  Py.keys (cells_data (snd (remove_cell "cell_2_li-ion"
                              (run sample_session init)))) =
    ["cell_1_lfp"; "cell_3_nimh"].
Proof.
  assert (G : Py.get "cell_2_li-ion" (cells_data (run sample_session init)) =
              Some (mkCell "li-ion" 3.6 0.0 25.1 0.0 "Standby"
                           "2024-01-01 10:00:01"))
    by (vm_compute; reflexivity).
  split; [exact G|].
  destruct (remove_cell_removes_only_that_cell sample_session _ _ G)
    as (_ & _ & _ & K & _).
  rewrite K. vm_compute. reflexivity.
Defined.

(** X5. [update_cell_current] on a cell that is there touches that cell only:
    every other id keeps its cell, the ids keep their order, and the number
    of cells and the counter stay as they are. *)
Theorem update_touches_one_cell
    (st : session_state) (cell_id : string) (cur : float) (c : cell) :
  Py.get cell_id (cells_data st) = Some c ->
  (forall k, k <> cell_id ->
     Py.get k (cells_data (snd (update_cell_current cell_id cur st))) =
     Py.get k (cells_data st)) /\
  Py.keys (cells_data (snd (update_cell_current cell_id cur st))) =
    Py.keys (cells_data st) /\
  Py.len (cells_data (snd (update_cell_current cell_id cur st))) =
    Py.len (cells_data st) /\
  cell_counter (snd (update_cell_current cell_id cur st)) = cell_counter st.
Proof.
  intros G. rewrite (update_cell_current_present _ _ _ _ G).
  cbn [snd cells_data cell_counter].
  split; [intros k Hk; apply get_modify_other; congruence|].
  split; [apply keys_modify|]. split; [apply len_modify | reflexivity].
Qed.

Lemma update_touches_one_cell_witness :
  Py.get "cell_1_lfp" (cells_data (run sample_session init)) =
    Some (mkCell "lfp" 3.2 1.5 31.4 4.8 "Active" "2024-01-01 10:00:00") /\
  Py.get "cell_3_nimh"
    (cells_data (snd (update_cell_current "cell_1_lfp" 7.5
                        (run sample_session init)))) =
  Py.get "cell_3_nimh" (cells_data (run sample_session init)).
Proof.
  assert (G : Py.get "cell_1_lfp" (cells_data (run sample_session init)) =
              Some (mkCell "lfp" 3.2 1.5 31.4 4.8 "Active"
                           "2024-01-01 10:00:00"))
    by (vm_compute; reflexivity).
  split; [exact G|].
  destruct (update_touches_one_cell (run sample_session init) _ 7.5 _ G)
    as (O & _).
  apply O. discriminate.
Defined.

(** X6. In a state that the program has reached, no command changes the type,
    the voltage, the temperature or the creation time of a cell that is there
    before and after it. *)
Theorem fixed_fields_survive_every_command
    (cs : list command) (cmd : command) (k : string) (c0 c1 : cell) :
  Py.get k (cells_data (run cs init)) = Some c0 ->
  Py.get k (cells_data (step (run cs init) cmd)) = Some c1 ->
  type c1 = type c0 /\ voltage c1 = voltage c0 /\ temp c1 = temp c0 /\
  created c1 = created c0.
Proof.
  intros G0 G1.
  destruct (run_registry_ok cs init init_registry_ok) as [ND F].
  assert (Same : Py.get k (cells_data (step (run cs init) cmd)) =
                 Py.get k (cells_data (run cs init)) ->
                 type c1 = type c0 /\ voltage c1 = voltage c0 /\
                 temp c1 = temp c0 /\ created c1 = created c0).
  { intros E. rewrite G0, G1 in E. injection E as ->. repeat split. }
  destruct cmd as [draw now ty|id|id cur|]; simpl in *.
  - unfold add_cell in *.
    destruct (8 <=? Py.len (cells_data (run cs init)))%nat;
      cbn [snd cells_data] in *; [now apply Same|].
    apply Same. apply get_set_other. intros E. subst k.
    rewrite (next_id_is_fresh _ _ ty F) in G0. discriminate.
  - unfold remove_cell in *.
    destruct (Py.mem id (cells_data (run cs init)));
      cbn [snd cells_data] in *; [|now apply Same].
    apply Same. apply get_del_other. intros E. subst k.
    rewrite (get_del_same _ _ ND) in G1. discriminate.
  - destruct (Py.get id (cells_data (run cs init))) as [c|] eqn:G.
    + rewrite (update_cell_current_present _ _ _ _ G) in G1.
      cbn [snd cells_data] in *.
      destruct (String.eqb_spec id k) as [->|Hk].
      * rewrite get_modify_same, G0 in G1. injection G1 as <-.
        repeat split.
      * rewrite get_modify_other, G0 in G1 by congruence.
        injection G1 as <-. repeat split.
    + unfold update_cell_current in *. rewrite G in *. now apply Same.
  - discriminate.
Qed.

Lemma fixed_fields_survive_every_command_witness :
  Py.get "cell_1_lfp"
    (cells_data (step (run sample_session init)
                      (UpdateCurrent "cell_1_lfp" 7.5))) =
    Some (mkCell "lfp" 3.2 7.5 31.4 24.0 "Active" "2024-01-01 10:00:00") /\
  temp (mkCell "lfp" 3.2 7.5 31.4 24.0 "Active" "2024-01-01 10:00:00") =
  temp (mkCell "lfp" 3.2 1.5 31.4 4.8 "Active" "2024-01-01 10:00:00").
Proof.
  assert (G1 : Py.get "cell_1_lfp"
                 (cells_data (step (run sample_session init)
                                   (UpdateCurrent "cell_1_lfp" 7.5))) =
               Some (mkCell "lfp" 3.2 7.5 31.4 24.0 "Active"
                            "2024-01-01 10:00:00"))
    by (vm_compute; reflexivity).
  split; [exact G1|].
  refine (proj1 (proj2 (proj2
    (fixed_fields_survive_every_command sample_session
       (UpdateCurrent "cell_1_lfp" 7.5) "cell_1_lfp"
       (mkCell "lfp" 3.2 1.5 31.4 4.8 "Active" "2024-01-01 10:00:00")
       _ _ G1)))).
  vm_compute. reflexivity.
Defined.

(** ** Ids between two clears, and the temperatures *)

Lemma get_del_none {V} (d : Py.dict V) (k k' : string) :
  Py.get k d = None -> Py.get k (Py.del k' d) = None.
Proof.
  rewrite !get_none_not_in. intros H I. apply H. eapply in_keys_del. exact I.
Qed.

Lemma get_modify_none {V} (d : Py.dict V) (k k' : string) (f : V -> V) :
  Py.get k d = None -> Py.get k (Py.modify k' f d) = None.
Proof.
  rewrite !get_none_not_in. now rewrite keys_modify.
Qed.

Lemma step_retired (k : string) (st : session_state) (c : command) :
  no_clear c = true -> retired k st -> retired k (step st c).
Proof.
  intros Hc [(n & ty0 & Hn & Ek) G]. unfold retired.
  destruct c as [draw now ty|id|id cur|]; simpl in *.
  - unfold add_cell. destruct (8 <=? Py.len (cells_data st))%nat;
      cbn [snd cells_data cell_counter].
    + split; [now exists n, ty0 | exact G].
    + split; [exists n, ty0; split; [lia | exact Ek]|].
      rewrite get_set_other; [exact G|].
      rewrite Ek. intros E. apply make_cell_id_inj in E. lia.
  - unfold remove_cell. destruct (Py.mem id (cells_data st));
      cbn [snd cells_data cell_counter].
    + split; [now exists n, ty0 | now apply get_del_none].
    + split; [now exists n, ty0 | exact G].
  - destruct (Py.get id (cells_data st)) as [c|] eqn:Gi.
    + rewrite (update_cell_current_present _ _ _ _ Gi).
      cbn [snd cells_data cell_counter].
      split; [now exists n, ty0 | now apply get_modify_none].
    + unfold update_cell_current. rewrite Gi. cbn [snd].
      split; [now exists n, ty0 | exact G].
  - discriminate.
Qed.

Lemma run_retired (k : string) (cs : list command) (st : session_state) :
  forallb no_clear cs = true -> retired k st -> retired k (run cs st).
Proof.
  revert st. induction cs as [|c cs IH]; intros st H R; [exact R|].
  simpl in H. apply andb_true_iff in H as [Hc Hcs].
  change (run (c :: cs) st) with (run cs (step st c)).
  apply IH; [exact Hcs | now apply step_retired].
Qed.

(** X7. Between two clears an id is never handed out twice: once a cell has
    been removed, no sequence of adds, removes and updates brings its id
    back. *)
Theorem removed_id_is_not_reused
    (cs after : list command) (cell_id : string) :
  In cell_id (Py.keys (cells_data (run cs init))) ->
  forallb no_clear after = true ->
  Py.get cell_id
    (cells_data (run after (snd (remove_cell cell_id (run cs init))))) = None.
Proof.
  intros I Hc.
  destruct (run_registry_ok cs init init_registry_ok) as [ND F].
  apply (run_retired cell_id after); [exact Hc|].
  unfold Py.keys in I. apply in_map_iff in I as ([k c] & Ek & I).
  simpl in Ek. subst k.
  rewrite Forall_forall in F. destruct (F _ I) as ((n & Hn & E) & _).
  simpl in E.
  assert (G : Py.get cell_id (cells_data (run cs init)) <> None).
  { rewrite get_none_not_in. intros H. apply H. unfold Py.keys.
    apply in_map_iff. now exists (cell_id, c). }
  unfold remove_cell, Py.mem.
  destruct (Py.get cell_id (cells_data (run cs init))) eqn:G'; [|congruence].
  cbn [snd cells_data cell_counter]. split.
  - exists n, (type c). split; [cbn [cell_counter]; lia | exact E].
  - now apply get_del_same.
Qed.

Lemma removed_id_is_not_reused_witness :
  In "cell_2_li-ion" (Py.keys (cells_data (run sample_session init))) /\
  Py.get "cell_2_li-ion"
    (cells_data (run [AddCell 30.0 "2024-01-02 09:00:00" "li-ion"]
                   (snd (remove_cell "cell_2_li-ion"
                           (run sample_session init))))) = None.
Proof.
  assert (I : In "cell_2_li-ion"
                (Py.keys (cells_data (run sample_session init))))
    by (vm_compute; tauto).
  split; [exact I|].
  apply (removed_id_is_not_reused sample_session
           [AddCell 30.0 "2024-01-02 09:00:00" "li-ion"] _ I).
  reflexivity.
Defined.

Lemma step_temperatures_in_range (st : session_state) (c : command) :
  temperature_draw_ok c = true ->
  temperatures_in_range st = true -> temperatures_in_range (step st c) = true.
Proof.
  unfold temperatures_in_range. intros Hc H.
  destruct c as [draw now ty|id|id cur|]; simpl in *.
  - unfold add_cell. destruct (8 <=? Py.len (cells_data st))%nat; simpl;
      [exact H|].
    apply forallb_values_set; [exact H|]. cbn [temp].
    apply andb_true_iff in Hc as [H1 H2].
    destruct (round1_between_25_and_40 draw H1 H2) as [R1 R2].
    now rewrite R1, R2.
  - unfold remove_cell. destruct (Py.mem id (cells_data st)); simpl;
      [|exact H].
    now apply forallb_values_del.
  - destruct (Py.get id (cells_data st)) as [c|] eqn:G.
    + rewrite (update_cell_current_present _ _ _ _ G). cbn [snd cells_data].
      unfold Py.values in *. clear G.
      induction (cells_data st) as [|[k v] d IH]; simpl in *; [reflexivity|].
      apply andb_true_iff in H as [H1 H2].
      destruct (String.eqb id k); simpl.
      * cbn [temp updated] in *. now rewrite H1, H2.
      * now rewrite H1, IH.
    + unfold update_cell_current. rewrite G. exact H.
  - reflexivity.
Qed.

(** X8. The temperature of every cell lies between 25 and 40 degrees,
    whatever the commands, as long as each draw of [random.uniform(25, 40)]
    lies in that range: rounding to one decimal never leaves it. *)
Theorem temperatures_stay_between_25_and_40 (cs : list command) :
  forallb temperature_draw_ok cs = true ->
  temperatures_in_range (run cs init) = true.
Proof.
  intros H.
  assert (G : forall st, temperatures_in_range st = true ->
                         temperatures_in_range (run cs st) = true).
  { induction cs as [|c cs IH]; intros st Hst; [exact Hst|].
    simpl in H. apply andb_true_iff in H as [Hc Hcs].
    change (run (c :: cs) st) with (run cs (step st c)).
    apply IH; [exact Hcs | now apply step_temperatures_in_range]. }
  apply G. reflexivity.
Qed.

Lemma temperatures_stay_between_25_and_40_witness :
  forallb temperature_draw_ok sample_session = true /\
  temperatures_in_range (run sample_session init) = true.
Proof.
  assert (H : forallb temperature_draw_ok sample_session = true)
    by (vm_compute; reflexivity).
  split; [exact H|].
  apply (temperatures_stay_between_25_and_40 sample_session H).
Defined.

(** ** The Random Data button *)

Open Scope Z_scope.

(** The mantissa of a binary64 has at most 53 bits. *)
Lemma mantissa_below_2_53 (m : positive) (e : Z) :
  bounded prec emax m e = true -> Zpos m < 2 ^ 53.
Proof.
  unfold bounded, canonical_mantissa. intros B.
  apply andb_true_iff in B as [C _]. apply Z.eqb_eq in C.
  unfold fexp, SpecFloat.emin, prec, emax in C.
  assert (Hd : Zpos (digits2_pos m) <= 53) by lia.
  pose proof (digits2_spec m) as D.
  assert (P : 2 ^ Zpos (digits2_pos m) <= 2 ^ 53)
    by (apply Z.pow_le_mono_r; lia).
  lia.
Qed.

Lemma hundredths_between_0_and_5 (n : Z) :
  0 <= n <= 500 -> hundredths_in_range n = true.
Proof.
  intros H.
  assert (A : forallb hundredths_in_range
                (map (fun k => Z.of_nat k) (seq 0 501)) = true)
    by (vm_compute; reflexivity).
  rewrite forallb_forall in A. apply A.
  apply in_map_iff. exists (Z.to_nat n). split; [lia|].
  apply in_seq. lia.
Qed.

(** Rounding a float between 0 and 5 to two decimals gives a float between
    0 and 5. *)
Lemma round2_between_0_and_5 (x : float) :
  (0 <=? x)%float = true -> (x <=? 5)%float = true ->
  (0 <=? Py.round x 2)%float = true /\ (Py.round x 2 <=? 5)%float = true.
Proof.
  intros H1 H2.
  assert (E5 : Prim2SF 5%float = S754_finite false 5629499534213120 (-50))
    by (vm_compute; reflexivity).
  assert (E0 : Prim2SF 0%float = S754_zero false) by reflexivity.
  unfold Py.round.
  pose proof (Prim2SF_valid x) as V.
  destruct (Prim2SF x) as [s|s| |s m e] eqn:E; try (split; assumption).
  destruct (Z.leb_spec 0 e) as [L|L]; [split; assumption|].
  assert (Hs : s = false).
  { rewrite leb_spec, E0, E in H1. destruct s; [discriminate H1 | reflexivity]. }
  subst s.
  assert (M : Zpos m * 100 <= 500 * 2 ^ (- e)).
  { rewrite leb_spec, E, E5 in H2. apply SFleb_finite_pos in H2.
    pose proof (mantissa_below_2_53 m e V) as Hm.
    destruct H2 as [H2|[-> H2]].
    - assert (P : 2 ^ 51 <= 2 ^ (- e)) by (apply Z.pow_le_mono_r; lia).
      lia.
    - change (- -50) with 50. lia. }
  assert (Pb : 0 < 2 ^ (- e)) by (apply Z.pow_pos_nonneg; lia).
  assert (N : 0 <= Py.round_half_even (Zpos m * 10 ^ Z.of_nat 2) (2 ^ (- e))
              <= 500).
  { change (10 ^ Z.of_nat 2) with 100.
    apply round_half_even_bounds; [exact Pb | lia]. }
  pose proof (hundredths_between_0_and_5 _ N) as T.
  unfold hundredths_in_range in T. apply andb_true_iff in T.
  exact T.
Qed.

Close Scope Z_scope.

Lemma keys_app {V} (a b : Py.dict V) :
  Py.keys (a ++ b)%list = (Py.keys a ++ Py.keys b)%list.
Proof. unfold Py.keys. apply map_app. Qed.

Lemma random_data_from_spec (draw : nat -> float) (n : nat)
    (rest pre : Py.dict cell) (i : nat) :
  NoDup (Py.keys (pre ++ rest)%list) ->
  random_data_from i draw (Py.keys rest) (mkState (pre ++ rest)%list n) =
  mkState (pre ++ randomized_from i draw rest)%list n.
Proof.
  revert pre i. induction rest as [|[k c] rest IH]; intros pre i ND;
    [reflexivity|].
  change (Py.keys ((k, c) :: rest)) with (k :: Py.keys rest).
  cbn [random_data_from randomized_from].
  rewrite keys_app in ND. change (Py.keys ((k, c) :: rest))
    with (k :: Py.keys rest) in ND.
  assert (Fp : Py.get k pre = None).
  { apply get_none_not_in. intros I.
    apply NoDup_remove_2 in ND. apply ND. apply in_or_app. now left. }
  assert (Fr : ~ In k (Py.keys rest)).
  { intros I. apply NoDup_remove_2 in ND. apply ND. apply in_or_app.
    now right. }
  assert (G : Py.get k (cells_data (mkState (pre ++ (k, c) :: rest)%list n)) =
              Some c).
  { cbn [cells_data]. rewrite get_app_fresh by exact Fp.
    simpl. now rewrite String.eqb_refl. }
  rewrite (update_cell_current_present _ _ _ _ G).
  cbn [snd cells_data cell_counter].
  rewrite modify_app_fresh by exact Fp.
  cbn [Py.modify]. rewrite String.eqb_refl.
  replace (pre ++ (k, updated (Py.round (draw i) 2) c) :: rest)%list
    with ((pre ++ [(k, updated (Py.round (draw i) 2) c)]) ++ rest)%list
    by (rewrite <- List.app_assoc; reflexivity).
  rewrite IH.
  - rewrite <- List.app_assoc. reflexivity.
  - rewrite <- List.app_assoc. rewrite keys_app.
    change (Py.keys ([(k, updated (Py.round (draw i) 2) c)] ++ rest)%list)
      with (k :: Py.keys rest).
    exact ND.
Qed.

Lemma keys_randomized_from (draw : nat -> float) (d : Py.dict cell) (i : nat) :
  Py.keys (randomized_from i draw d) = Py.keys d.
Proof.
  revert i. induction d as [|[k c] d IH]; intros i; [reflexivity|].
  simpl. now rewrite IH.
Qed.

Lemma randomized_from_values (draw : nat -> float) (p : cell -> bool)
    (d : Py.dict cell) (i : nat) :
  (forall j c, p (updated (Py.round (draw j) 2) c) = true) ->
  forallb p (Py.values (randomized_from i draw d)) = true.
Proof.
  intros H. revert i. induction d as [|[k c] d IH]; intros i; [reflexivity|].
  simpl. rewrite H. apply IH.
Qed.

(** X9. The Random Data button gives the [i]-th cell, in insertion order, the
    [i]-th draw rounded to two decimals as its current, with capacity and
    status recomputed from it; ids, order and counter stay as they are. *)
Theorem random_data_updates_each_cell_once
    (cs : list command) (draw : nat -> float) :
  random_data draw (run cs init) =
  mkState (randomized_from 0 draw (cells_data (run cs init)))
          (cell_counter (run cs init)) /\
  Py.keys (cells_data (random_data draw (run cs init))) =
  Py.keys (cells_data (run cs init)).
Proof.
  destruct (run_registry_ok cs init init_registry_ok) as [ND _].
  assert (E : random_data draw (run cs init) =
              mkState (randomized_from 0 draw (cells_data (run cs init)))
                      (cell_counter (run cs init))).
  { unfold random_data. destruct (run cs init) as [d n].
    cbn [cells_data cell_counter] in *.
    exact (random_data_from_spec draw n d [] 0 ND). }
  split; [exact E|]. rewrite E. cbn [cells_data]. apply keys_randomized_from.
Qed.

(** X10. After Random Data no cell is "Ready" any more, and when every draw of
    [random.uniform(0, 5)] lies between 0 and 5, so does every current. *)
Theorem random_data_currents_between_0_and_5
    (cs : list command) (draw : nat -> float) :
  (forall i, (0 <=? draw i)%float = true /\ (draw i <=? 5)%float = true) ->
  forallb (fun c => ((0 <=? current c) && (current c <=? 5))%float &&
                    negb (String.eqb (status c) "Ready"))
          (Py.values (cells_data (random_data draw (run cs init)))) = true.
Proof.
  intros H.
  destruct (run_registry_ok cs init init_registry_ok) as [ND _].
  assert (E : random_data draw (run cs init) =
              mkState (randomized_from 0 draw (cells_data (run cs init)))
                      (cell_counter (run cs init))).
  { unfold random_data. destruct (run cs init) as [d n].
    cbn [cells_data cell_counter] in *.
    exact (random_data_from_spec draw n d [] 0 ND). }
  rewrite E. cbn [cells_data]. apply randomized_from_values.
  intros j c. cbn [updated current status].
  destruct (H j) as [H1 H2].
  destruct (round2_between_0_and_5 _ H1 H2) as [R1 R2].
  rewrite R1, R2. now destruct (0 <? Py.round (draw j) 2)%float.
Qed.

Lemma random_data_currents_between_0_and_5_witness :
  (forall i : nat, (0 <=? 2.505)%float = true /\ (2.505 <=? 5)%float = true) /\
  forallb (fun c => ((0 <=? current c) && (current c <=? 5))%float &&
                    negb (String.eqb (status c) "Ready"))
          (Py.values (cells_data
             (random_data (fun _ => 2.505%float) (run sample_session init)))) =
  true.
Proof.
  assert (H : forall i : nat,
             (0 <=? 2.505)%float = true /\ (2.505 <=? 5)%float = true)
    by (intros _; split; vm_compute; reflexivity).
  split; [exact H|].
  exact (random_data_currents_between_0_and_5 sample_session
           (fun _ => 2.505%float) H).
Defined.

(** ** The quick-start buttons, and adding then removing *)


Lemma add_cell_full_again (draw : float) (now ty : string)
    (st : session_state) :
  fst (fst (add_cell draw now ty st)) = false ->
  snd (add_cell draw now ty st) = st /\
  forall draw' now' ty', snd (add_cell draw' now' ty' st) = st.
Proof.
  unfold add_cell.
  destruct (8 <=? Py.len (cells_data st))%nat; [|discriminate].
  intros _. split; [reflexivity | intros; reflexivity].
Qed.

Lemma run_adds_refused (draw : nat -> float) (now choice : nat -> string)
    (js : list nat) (st : session_state) :
  (forall draw' now' ty', snd (add_cell draw' now' ty' st) = st) ->
  run (map (fun j => AddCell (draw j) (now j) (choice j)) js) st = st.
Proof.
  intros A. induction js as [|j js IH]; [reflexivity|].
  cbn [map]. unfold run in *. cbn [fold_left step]. now rewrite A.
Qed.

(** The loop of "Add 3 Random Cells" with [n] passes left is a run of [n]
    adds: after a refusal every further add is refused too. *)
Lemma quick_random_from_run
    (choice : nat -> string) (draw : nat -> float) (now : nat -> string)
    (n i : nat) (st : session_state) :
  quick_random_from n i choice draw now st =
  run (map (fun j => AddCell (draw j) (now j) (choice j)) (seq i n)) st.
Proof.
  revert i st. induction n as [|n IH]; intros i st; [reflexivity|].
  cbn [quick_random_from seq map].
  change (run (AddCell (draw i) (now i) (choice i) ::
               map (fun j => AddCell (draw j) (now j) (choice j))
                   (seq (S i) n)) st)
    with (run (map (fun j => AddCell (draw j) (now j) (choice j))
                   (seq (S i) n))
              (snd (add_cell (draw i) (now i) (choice i) st))).
  pose proof (add_cell_full_again (draw i) (now i) (choice i) st) as A.
  destruct (add_cell (draw i) (now i) (choice i) st) as [[s m] st'].
  cbn [fst snd] in *. destruct s; [apply IH|].
  destruct (A eq_refl) as [-> A']. symmetry. now apply run_adds_refused.
Qed.

(** X11. "Add 3 Random Cells" is three calls of [add_cell] in a row: the
    [break] after a refusal skips only calls that would be refused too. *)
Theorem quick_random_is_three_adds
    (choice : nat -> string) (draw : nat -> float) (now : nat -> string)
    (st : session_state) :
  quick_random choice draw now st =
  run [AddCell (draw 0%nat) (now 0%nat) (choice 0%nat);
       AddCell (draw 1%nat) (now 1%nat) (choice 1%nat);
       AddCell (draw 2%nat) (now 2%nat) (choice 2%nat)] st.
Proof.
  unfold quick_random. rewrite quick_random_from_run. reflexivity.
Qed.

(** X12. The quick-start view is shown when the registry is empty; there
    "Add 3 Random Cells" adds exactly three cells, numbered on from the
    counter: none of its three calls is refused. *)
Theorem quick_random_adds_three_cells
    (choice : nat -> string) (draw : nat -> float) (now : nat -> string)
    (st : session_state) :
  cells_data st = [] ->
  quick_random choice draw now st =
  mkState
    [(make_cell_id (cell_counter st + 1) (choice 0%nat),
      new_cell (draw 0%nat) (now 0%nat) (choice 0%nat));
     (make_cell_id (cell_counter st + 2) (choice 1%nat),
      new_cell (draw 1%nat) (now 1%nat) (choice 1%nat));
     (make_cell_id (cell_counter st + 3) (choice 2%nat),
      new_cell (draw 2%nat) (now 2%nat) (choice 2%nat))]
    (cell_counter st + 3).
Proof.
  destruct st as [d n]. cbn [cells_data cell_counter]. intros ->.
  unfold quick_random. cbn [quick_random_from].
  unfold add_cell at 1. cbn [cells_data cell_counter Py.len List.length
                             Nat.leb Py.set].
  unfold add_cell at 1. cbn [cells_data cell_counter Py.len List.length
                             Nat.leb Py.set].
  destruct (String.eqb_spec (make_cell_id (n + 1 + 1) (choice 1%nat))
                            (make_cell_id (n + 1) (choice 0%nat))) as [E|_];
    [apply make_cell_id_inj in E; lia|].
  unfold add_cell at 1. cbn [cells_data cell_counter Py.len List.length
                             Nat.leb Py.set].
  destruct (String.eqb_spec (make_cell_id (n + 1 + 1 + 1) (choice 2%nat))
                            (make_cell_id (n + 1) (choice 0%nat))) as [E|_];
    [apply make_cell_id_inj in E; lia|].
  destruct (String.eqb_spec (make_cell_id (n + 1 + 1 + 1) (choice 2%nat))
                            (make_cell_id (n + 1 + 1) (choice 1%nat))) as [E|_];
    [apply make_cell_id_inj in E; lia|].
  unfold new_cell.
  replace (n + 1 + 1)%nat with (n + 2)%nat by lia.
  replace (n + 2 + 1)%nat with (n + 3)%nat by lia.
  reflexivity.
Qed.

Lemma quick_random_adds_three_cells_witness :
  cells_data (snd (remove_cell "cell_1_lfp" one_lfp)) = [] /\
  Py.keys (cells_data
    (quick_random (fun i => nth i ["nimh"; "lfp"; "nimh"] "lfp")
                  (fun _ => 30.0%float) (fun _ => "2024-01-01 10:00:00")
                  (snd (remove_cell "cell_1_lfp" one_lfp)))) =
  ["cell_2_nimh"; "cell_3_lfp"; "cell_4_nimh"].
Proof.
  assert (E : cells_data (snd (remove_cell "cell_1_lfp" one_lfp)) = [])
    by (vm_compute; reflexivity).
  split; [exact E|].
  rewrite (quick_random_adds_three_cells
             (fun i => nth i ["nimh"; "lfp"; "nimh"] "lfp")
             (fun _ => 30.0%float) (fun _ => "2024-01-01 10:00:00") _ E).
  vm_compute. reflexivity.
Defined.

Lemma del_app_last {V} (d : Py.dict V) (k : string) (v : V) :
  Py.get k d = None -> Py.del k (d ++ [(k, v)])%list = d.
Proof.
  induction d as [|[k' v'] d IH]; simpl.
  - now rewrite String.eqb_refl.
  - destruct (String.eqb k k'); [discriminate|].
    intros H. now rewrite IH.
Qed.

(** X13. Removing the cell that has just been added gives the registry back as
    it was, in a state that the program has reached; the counter keeps the
    number it has handed out. *)
Theorem remove_undoes_add_except_counter
    (cs : list command) (draw : float) (now ty : string) :
  (Py.len (cells_data (run cs init)) < 8)%nat ->
  remove_cell (make_cell_id (cell_counter (run cs init) + 1) ty)
              (snd (add_cell draw now ty (run cs init))) =
  ((true, "Removed cell: " ++
          make_cell_id (cell_counter (run cs init) + 1) ty),
   mkState (cells_data (run cs init)) (cell_counter (run cs init) + 1)).
Proof.
  intros L.
  destruct (run_registry_ok cs init init_registry_ok) as [_ F].
  pose proof (next_id_is_fresh _ _ ty F) as Fr.
  rewrite (add_cell_room _ _ _ _ L). cbn [snd].
  unfold remove_cell, Py.mem. cbn [cells_data cell_counter].
  rewrite get_set_same. rewrite (set_fresh _ _ _ Fr).
  now rewrite (del_app_last _ _ _ Fr).
Qed.

Lemma remove_undoes_add_except_counter_witness :
  (Py.len (cells_data (run sample_session init)) < 8)%nat /\
  snd (remove_cell "cell_4_nicad"
         (snd (add_cell 30.0 "2024-01-01 10:00:09" "nicad"
                 (run sample_session init)))) =
  mkState (cells_data (run sample_session init)) 4.
Proof.
  assert (L : (Py.len (cells_data (run sample_session init)) < 8)%nat)
    by (vm_compute; lia).
  split; [exact L|].
  pose proof (remove_undoes_add_except_counter sample_session 30.0
                "2024-01-01 10:00:09" "nicad" L) as R.
  change (make_cell_id (cell_counter (run sample_session init) + 1) "nicad")
    with "cell_4_nicad" in R.
  rewrite R. reflexivity.
Defined.

(** ** The frame, the remove box and the metric of active cells *)

(** The frame of a registry that is not empty. *)
Lemma get_cells_dataframe_nonempty (st : session_state) :
  cells_data st <> [] ->
  get_cells_dataframe st =
  Pd.mkFrame ["Cell ID"; "type"; "voltage"; "current"; "temp"; "capacity";
              "status"; "created"]
             (map frame_row (cells_data st)).
Proof.
  unfold get_cells_dataframe, Pd.of_records.
  destruct (cells_data st) as [|kc d]; [congruence|]. intros _.
  rewrite map_map. reflexivity.
Qed.

(** X14. For a registry with at least one cell the frame has one row per cell,
    in insertion order: its column "Cell ID" lists the ids, and the columns
    "current", "temp", "capacity" and "status" list those fields of the
    cells. *)
Theorem dataframe_has_one_row_per_cell (st : session_state) :
  cells_data st <> [] ->
  Pd.len (get_cells_dataframe st) = Py.len (cells_data st) /\
  Pd.column "Cell ID" (get_cells_dataframe st) =
    Some (map Py.VStr (Py.keys (cells_data st))) /\
  Pd.column "current" (get_cells_dataframe st) =
    Some (map (fun c => Py.VFloat (current c)) (Py.values (cells_data st))) /\
  Pd.column "temp" (get_cells_dataframe st) =
    Some (map (fun c => Py.VFloat (temp c)) (Py.values (cells_data st))) /\
  Pd.column "capacity" (get_cells_dataframe st) =
    Some (map (fun c => Py.VFloat (capacity c)) (Py.values (cells_data st))) /\
  Pd.column "status" (get_cells_dataframe st) =
    Some (map (fun c => Py.VStr (status c)) (Py.values (cells_data st))).
Proof.
  intros H. rewrite (get_cells_dataframe_nonempty st H).
  unfold Pd.len, Pd.column, Py.len, Py.keys, Py.values.
  cbn [Pd.rows Pd.columns]. rewrite length_map.
  split; [reflexivity|].
  repeat split; cbn; rewrite !map_map; reflexivity.
Qed.

Lemma dataframe_has_one_row_per_cell_witness :
  cells_data (run sample_session init) <> [] /\
  Pd.column "Cell ID" (get_cells_dataframe (run sample_session init)) =
  Some [Py.VStr "cell_1_lfp"; Py.VStr "cell_2_li-ion"; Py.VStr "cell_3_nimh"].
Proof.
  assert (H : cells_data (run sample_session init) <> [])
    by (vm_compute; discriminate).
  split; [exact H|].
  destruct (dataframe_has_one_row_per_cell (run sample_session init) H)
    as (_ & C & _).
  rewrite C. vm_compute. reflexivity.
Defined.

(** X15. Every id that the remove box offers is an id of the registry, and
    [remove_cell] succeeds on each of them and takes one cell out. *)
Theorem offered_cell_can_be_removed (st : session_state) :
  remove_options (get_cells_dataframe st) =
    Some (map Py.VStr (Py.keys (cells_data st))) /\
  forall cell_id,
    In cell_id (Py.keys (cells_data st)) ->
    fst (remove_cell cell_id st) = (true, "Removed cell: " ++ cell_id) /\
    S (Py.len (cells_data (snd (remove_cell cell_id st)))) =
      Py.len (cells_data st).
Proof.
  split.
  - destruct (cells_data st) as [|kc d] eqn:E.
    + unfold get_cells_dataframe. rewrite E. reflexivity.
    + assert (H : cells_data st <> []) by congruence.
      rewrite (get_cells_dataframe_nonempty st H), E.
      unfold remove_options, Pd.len, Pd.column, Py.keys.
      cbn. rewrite !map_map. reflexivity.
  - intros cell_id I. unfold remove_cell, Py.mem.
    destruct (Py.get cell_id (cells_data st)) as [c|] eqn:G.
    + cbn [fst snd cells_data]. split; [reflexivity|].
      now apply len_del_present with (v := c).
    + apply get_none_not_in in G. contradiction.
Qed.

Lemma main_content_nonempty (st : session_state) :
  cells_data st <> [] ->
  main_content st = Dashboard (compute_metrics (get_cells_dataframe st)).
Proof.
  unfold main_content. destruct (cells_data st); [congruence | reflexivity].
Qed.

Lemma status_active_iff_positive (n : nat) (kc : string * cell) :
  cell_ok n kc ->
  String.eqb (status (snd kc)) "Active" = (0 <? current (snd kc))%float.
Proof.
  intros (_ & _ & _ & [[-> ->]|[[-> ->]|[-> ->]]]); reflexivity.
Qed.

(** X16. The metric "Active Cells" is the number of cells whose current is
    above zero, in every state that the program has reached with a cell in
    it, and it is at most "Total Cells", which is at most 8. *)
Theorem active_cells_counts_positive_currents (cs : list command) :
  cells_data (run cs init) <> [] ->
  exists m,
    main_content (run cs init) = Dashboard (Some m) /\
    active_cells m =
      List.length (filter (fun c => (0 <? current c)%float)
                          (Py.values (cells_data (run cs init)))) /\
    (active_cells m <= total_cells m <= 8)%nat.
Proof.
  intros H.
  destruct (run_registry_ok cs init init_registry_ok) as [_ F].
  pose proof (run_len_bound cs init) as B.
  assert (E : compute_metrics (get_cells_dataframe (run cs init)) =
              Some (mkMetrics
                (Py.len (cells_data (run cs init)))
                (List.length (filter (fun c => String.eqb (status c) "Active")
                                (Py.values (cells_data (run cs init)))))
                (Pd.sum (map (fun c => Py.VFloat (capacity c))
                             (Py.values (cells_data (run cs init)))))
                (Pd.mean (map (fun c => Py.VFloat (temp c))
                              (Py.values (cells_data (run cs init)))))
                (Pd.sum (map (fun c => Py.VFloat (current c))
                             (Py.values (cells_data (run cs init))))))).
  { rewrite (get_cells_dataframe_nonempty _ H).
    unfold compute_metrics, Pd.count_eq, Pd.column, Pd.len, Py.len, Py.values.
    cbn [Pd.rows Pd.columns]. cbn. rewrite !map_map, length_map.
    do 2 f_equal.
    generalize (cells_data (run cs init)) as d. clear. intros d.
    induction d as [|kc d IH]; [reflexivity|].
    cbn [map filter].
    change (nth 6 (frame_row kc) (Py.VStr ""))
      with (Py.VStr (status (snd kc))).
    cbv beta iota.
    destruct (String.eqb (status (snd kc)) "Active");
      cbn [List.length]; now rewrite IH. }
  eexists. split.
  - rewrite (main_content_nonempty _ H), E. reflexivity.
  - cbn [active_cells total_cells]. split.
    + clear E H B. unfold Py.values.
      induction F as [|kc d Hk F IH]; [reflexivity|].
      cbn [map filter]. rewrite (status_active_iff_positive _ _ Hk).
      destruct (0 <? current (snd kc))%float; cbn [List.length];
        now rewrite IH.
    + split.
      * unfold Py.len, Py.values.
        rewrite <- (length_map snd (cells_data (run cs init))).
        apply filter_length_le.
      * apply B. cbn. lia.
Qed.

Lemma active_cells_counts_positive_currents_witness :
  cells_data (run sample_session init) <> [] /\
  exists m,
    main_content (run sample_session init) = Dashboard (Some m) /\
    active_cells m = 1%nat.
Proof.
  assert (H : cells_data (run sample_session init) <> [])
    by (vm_compute; discriminate).
  split; [exact H|].
  destruct (active_cells_counts_positive_currents sample_session H)
    as (m & E & A & _).
  exists m. split; [exact E|]. rewrite A. vm_compute. reflexivity.
Defined.

Lemma offered_cell_can_be_removed_witness :
  In "cell_3_nimh" (Py.keys (cells_data (run sample_session init))) /\
  fst (remove_cell "cell_3_nimh" (run sample_session init)) =
    (true, "Removed cell: cell_3_nimh").
Proof.
  assert (I : In "cell_3_nimh"
                (Py.keys (cells_data (run sample_session init))))
    by (vm_compute; tauto).
  split; [exact I|].
  exact (proj1 (proj2 (offered_cell_can_be_removed (run sample_session init))
                  "cell_3_nimh" I)).
Defined.

(** ** The update form, the export and the bulk buttons *)






Lemma cells_object_inj (st1 st2 : session_state) :
  cells_object st1 = cells_object st2 -> cells_data st1 = cells_data st2.
Proof.
  unfold cells_object. intros H. injection H as H.
  revert H. generalize (cells_data st2) as d2.
  induction (cells_data st1) as [|[k1 c1] d1 IH]; intros [|[k2 c2] d2] H;
    try discriminate H; [reflexivity|].
  cbn in H. injection H as -> Ht Hv Hc Htp Hcap Hs Hcr Hd.
  rewrite (IH _ Hd). destruct c1, c2. cbn in *. congruence.
Qed.

(** X18. The JSON export tells the registries apart: two sessions whose
    exports are the same text hold the same cells under the same ids in the
    same order. *)
Theorem json_export_is_injective (cs1 cs2 : list command) :
  export_data "json" (run cs1 init) = export_data "json" (run cs2 init) ->
  cells_data (run cs1 init) = cells_data (run cs2 init).
Proof.
  intros H. apply cells_object_inj.
  unfold export_data in H. cbn [String.eqb Ascii.eqb Bool.eqb] in H.
  injection H as H. apply (f_equal Py.json_loads) in H.
  rewrite !export_json_reads_back in H
    by (apply run_nodup_keys; constructor).
  congruence.
Qed.

Lemma json_export_is_injective_witness :
  export_data "json" (run sample_session init) =
  export_data "json" (run (sample_session ++ [RemoveCell "cell_9_lfp"]) init)
  /\
  cells_data (run sample_session init) =
  cells_data (run (sample_session ++ [RemoveCell "cell_9_lfp"]) init).
Proof.
  assert (H : export_data "json" (run sample_session init) =
              export_data "json"
                (run (sample_session ++ [RemoveCell "cell_9_lfp"]) init))
    by (vm_compute; reflexivity).
  split; [exact H|].
  exact (json_export_is_injective _ _ H).
Defined.



